(** * bootstrap/register.py: the site registration client

    A shallow embedding of [src/bootstrap/register.py] and the properties of
    its registration client and command-line entry point.

    The script talks to two HTTP endpoints through [requests.post], validates
    the answer with pydantic and reports through [logging] and [print].  The
    embedding keeps the script's own control flow and data, and takes what the
    libraries and the network decide as the fields of two interfaces,
    [PyRuntime] and [World].  Effects are threaded through a state-and-error
    monad [M]: the state holds the object store (the [RegistrationClient]
    instances), the outside world and the chronological list of observable
    events (HTTP calls, log records, printed lines). *)

From stdpp Require Import base tactics option list strings pretty.
From Stdlib Require Import ZArith Ascii Lia.

Local Open Scope Z_scope.
Local Open Scope string_scope.
Local Open Scope list_scope.
#[local] Set Warnings "-register-all".

(** ** Python values *)

(** The two value types of the Python runtime that the script only passes
    around: floating-point numbers (a JSON number with a fraction or an
    exponent) and [datetime.datetime]. *)
Class PyTypes := {
  pyfloat : Type;
  datetime : Type;
}.

(** What [json.loads] produces: [None], [bool], [int], [float], [str], [list]
    and [dict] with string keys.  A [dict] keeps its items in insertion order
    and its keys are pairwise distinct. *)
Inductive jvalue `{PyTypes} : Type :=
  | JNull
  | JBool (b : bool)
  | JInt (n : Z)
  | JFloat (f : pyfloat)
  | JStr (s : string)
  | JArr (items : list jvalue)
  | JObj (items : list (string * jvalue)).

(** [d[key]] on an item list, [None] standing for the missing key. *)
Fixpoint dict_get {V : Type} (d : list (string * V)) (key : string) : option V :=
  match d with
  | [] => None
  | (k, v) :: d' => if decide (k = key) then Some v else dict_get d' key
  end.

(** [d[key] = v]: the value of an existing key is replaced in place, a new key
    goes to the end. *)
Fixpoint dict_set {V : Type} (d : list (string * V)) (key : string) (v : V)
  : list (string * V) :=
  match d with
  | [] => [(key, v)]
  | (k, w) :: d' =>
      if decide (k = key) then (k, v) :: d' else (k, w) :: dict_set d' key v
  end.

(** [type(v).__name__]. *)
Definition type_name `{PyTypes} (v : jvalue) : string :=
  match v with
  | JNull => "NoneType"
  | JBool _ => "bool"
  | JInt _ => "int"
  | JFloat _ => "float"
  | JStr _ => "str"
  | JArr _ => "list"
  | JObj _ => "dict"
  end.

(** [str.rstrip(c)] for a one-character argument: every trailing [c] goes. *)
Fixpoint rstrip (c : ascii) (s : string) : string :=
  match s with
  | EmptyString => EmptyString
  | String a s' =>
      let r := rstrip c s' in
      if bool_decide (r = EmptyString) && bool_decide (a = c)
      then EmptyString
      else String a r
  end.

(** [c in s] for a character [c]. *)
Fixpoint occurs (c : ascii) (s : string) : bool :=
  match s with
  | EmptyString => false
  | String a s' => bool_decide (a = c) || occurs c s'
  end.

(** Joins the pieces with [sep] between them, as [sep.join(pieces)]. *)
Fixpoint join (sep : string) (pieces : list string) : string :=
  match pieces with
  | [] => ""
  | [p] => p
  | p :: ps => p +:+ sep +:+ join sep ps
  end.

(** ** Exceptions *)

(** An instance of an exception class that the script does not declare (a
    builtin, or one of [requests] or pydantic): its [__class__.__name__] and
    its [str()]. *)
Record foreign_exn := ForeignExn {
  exc_type : string;
  exc_str : string;
}.

(** The instances of [Exception] that can travel through the script.
    [RegistrationApiError] is the class declared at lines 27-29; it is raised
    with one argument, the message. *)
Inductive exn :=
  | RegistrationApiError (msg : string)
  | Foreign (e : foreign_exn).

(** [e.__class__.__name__] *)
Definition class_name (e : exn) : string :=
  match e with
  | RegistrationApiError _ => "RegistrationApiError"
  | Foreign f => exc_type f
  end.

(** [str(e)] *)
Definition exn_str (e : exn) : string :=
  match e with
  | RegistrationApiError msg => msg
  | Foreign f => exc_str f
  end.

(** What unwinds the stack: an [Exception], which [except Exception] catches,
    or the [SystemExit] of [sys.exit], which it does not. *)
Inductive raised :=
  | Exc (e : exn)
  | SystemExit (code : Z).

(** ** HTTP *)

(** One call of [requests.post]: the URL and the keyword arguments [data],
    [json], [headers] and [timeout], [None] when the call does not pass the
    keyword. *)
Record PostCall `{PyTypes} := mkPostCall {
  post_url : string;
  post_data : option (list (string * string));
  post_json : option jvalue;
  post_headers : list (string * string);
  post_timeout : option Z;
}.
Arguments mkPostCall {_} _ _ _ _ _.

(** A [requests.Response]: the attributes the script and [raise_for_status]
    read, and what the [json()] method does, which is to return the decoded
    body or to raise. *)
Record Response `{PyTypes} := mkResponse {
  status_code : Z;
  reason : string;
  url : string;
  text : string;
  json : foreign_exn + jvalue;
}.
Arguments mkResponse {_} _ _ _ _ _.

(** [requests.Response.raise_for_status]: raises [HTTPError] for the statuses
    from 400 to 599 and returns for every other status. *)
Definition raise_for_status `{PyTypes} (r : Response) : option foreign_exn :=
  if bool_decide (400 ≤ status_code r < 500) then
    Some (ForeignExn "HTTPError"
            (pretty (status_code r) +:+ " Client Error: " +:+ reason r
               +:+ " for url: " +:+ url r))
  else if bool_decide (500 ≤ status_code r < 600) then
    Some (ForeignExn "HTTPError"
            (pretty (status_code r) +:+ " Server Error: " +:+ reason r
               +:+ " for url: " +:+ url r))
  else None.

(** ** The pydantic models (lines 15-24) *)

Record SiteRegistrationRequest := mkSiteRegistrationRequest {
  req_site_name : string;
  req_public_key : string;
}.

Record SiteRegistrationResponse `{PyTypes} := mkSiteRegistrationResponse {
  id : Z;
  site_name : string;
  created_at : datetime;
  created_by : string;
}.
Arguments mkSiteRegistrationResponse {_} _ _ _ _.

(** [BaseModel.model_dump]: the fields as a [dict], in declaration order. *)
Definition model_dump `{PyTypes} (r : SiteRegistrationRequest) : list (string * jvalue) :=
  [("site_name", JStr (req_site_name r)); ("public_key", JStr (req_public_key r))].

(** The value of an attribute of a response object. *)
Inductive attr_value `{PyTypes} : Type :=
  | AInt (n : Z)
  | AStr (s : string)
  | ADatetime (d : datetime).

(** [getattr(r, name)] on a [SiteRegistrationResponse].  The instance has the
    four declared fields; the class declares no method, and the methods it
    inherits from [BaseModel] all carry other names than the fields and than
    [get], the one further name the script looks up.  A name that is not found
    raises [AttributeError]. *)
Definition getattr_response `{PyTypes} (r : SiteRegistrationResponse) (name : string)
  : foreign_exn + attr_value :=
  if decide (name = "id") then inr (AInt (id r))
  else if decide (name = "site_name") then inr (AStr (site_name r))
  else if decide (name = "created_at") then inr (ADatetime (created_at r))
  else if decide (name = "created_by") then inr (AStr (created_by r))
  else inl (ForeignExn "AttributeError"
              ("'SiteRegistrationResponse' object has no attribute '" +:+ name +:+ "'")).

(** Calling an attribute value: an [int], a [str] or a [datetime] is not
    callable. *)
Definition py_call `{PyTypes} (f : attr_value) (args : list string)
  : foreign_exn + attr_value :=
  inl (ForeignExn "TypeError"
         ("'" +:+ match f with
                  | AInt _ => "int"
                  | AStr _ => "str"
                  | ADatetime _ => "datetime.datetime"
                  end +:+ "' object is not callable")).

(** ** The Python runtime and the libraries *)

(** What the interpreter and pydantic decide: the truth value and the [repr]
    of a float, the [repr] of a string, the module's [__name__], and the
    validation that the constructor of [SiteRegistrationResponse] runs on its
    keyword arguments, which returns the instance or raises. *)
Class PyRuntime `{PyTypes} := {
  float_truthy : pyfloat → bool;
  float_repr : pyfloat → string;
  str_repr : string → string;
  module_name : string;
  validate_response : list (string * jvalue) → foreign_exn + SiteRegistrationResponse;
}.

(** [bool(v)], the test of [if v:]. *)
Definition truthy `{PyRuntime} (v : jvalue) : bool :=
  match v with
  | JNull => false
  | JBool b => b
  | JInt n => negb (bool_decide (n = 0))
  | JFloat f => float_truthy f
  | JStr s => negb (bool_decide (s = ""))
  | JArr items => negb (bool_decide (items = []))
  | JObj items => negb (bool_decide (items = []))
  end.

(** [repr(v)] *)
Fixpoint py_repr `{PyRuntime} (v : jvalue) : string :=
  match v with
  | JNull => "None"
  | JBool true => "True"
  | JBool false => "False"
  | JInt n => pretty n
  | JFloat f => float_repr f
  | JStr s => str_repr s
  | JArr items => "[" +:+ join ", " (map py_repr items) +:+ "]"
  | JObj items =>
      "{" +:+ join ", " (map (λ '(k, w), str_repr k +:+ ": " +:+ py_repr w) items) +:+ "}"
  end.

(** [str(v)], which is also what [{v}] in an f-string inserts. *)
Definition py_str `{PyRuntime} (v : jvalue) : string :=
  match v with
  | JStr s => s
  | _ => py_repr v
  end.

(** [v[key]] with a string key: a [dict] looks the key up, every other type
    raises [TypeError]. *)
Definition py_getitem `{PyTypes} (v : jvalue) (key : string) : foreign_exn + jvalue :=
  match v with
  | JObj items =>
      match dict_get items key with
      | Some w => inr w
      | None => inl (ForeignExn "KeyError" ("'" +:+ key +:+ "'"))
      end
  | JArr _ => inl (ForeignExn "TypeError" "list indices must be integers or slices, not str")
  | JStr _ => inl (ForeignExn "TypeError" "string indices must be integers, not 'str'")
  | _ => inl (ForeignExn "TypeError" ("'" +:+ type_name v +:+ "' object is not subscriptable"))
  end.

(** ** The outside world *)

(** What is outside the process: the servers that answer [requests.post] (or
    the transport error the call raises instead), the host name, the operating
    system and the source of random UUIDs.  Each operation may change the
    world, so two calls need not get the same answer. *)
Class World `{PyTypes} := {
  world : Type;
  net_post : PostCall → world → (foreign_exn + Response) * world;
  socket_gethostname : world → string * world;
  platform_system : world → string * world;
  uuid_uuid4 : world → string * world;
}.

(** ** Events, state and the monad *)

Inductive log_level := INFO | ERROR.
Inductive stream := Stdout | Stderr.

(** The observable steps of a run, in the order they happen: a call of
    [requests.post], a call of a [logger] method (its message, positional
    arguments and [extra] dict) and a line given to [print]. *)
Inductive event `{PyTypes} : Type :=
  | EvPost (call : PostCall)
  | EvLog (level : log_level) (msg : string) (args : list attr_value)
          (extra : list (string * jvalue))
  | EvPrint (out : stream) (line : string).

(** The attributes of a [RegistrationClient] instance (lines 40-44). *)
Record RegistrationClient := mkRegistrationClient {
  api_url : string;
  oidc_token_url : string;
  oidc_client_id : string;
  oidc_client_secret : string;
  timeout : Z;
}.

(** The state of a run: the store of client objects (a reference is an index
    into it), the world and the events so far. *)
Record state `{World} := mkState {
  objects : list RegistrationClient;
  net : world;
  trace : list event;
}.
Arguments mkState {_ _} _ _ _.

(** A computation returns a value or unwinds, and leaves a state. *)
Definition M `{World} (A : Type) : Type := state → (raised + A) * state.

#[export] Instance M_ret `{World} : MRet M := λ A (a : A) st, (inr a, st).
#[export] Instance M_bind `{World} : MBind M := λ A B (f : A → M B) (m : M A) st,
  match m st with
  | (inr a, st') => f a st'
  | (inl r, st') => (inl r, st')
  end.

Definition raise `{World} {A : Type} (r : raised) : M A := λ st, (inl r, st).

(** Returns the value of a library call, or raises what the call raised. *)
Definition lift `{World} {A : Type} (x : foreign_exn + A) : M A :=
  match x with
  | inr a => mret a
  | inl e => raise (Exc (Foreign e))
  end.

Definition emit `{World} (e : event) : M unit :=
  λ st, (inr (), mkState (objects st) (net st) (trace st ++ [e])).

(** Runs an operation of the world. *)
Definition ask `{World} {A : Type} (op : world → A * world) : M A :=
  λ st, let '(a, w) := op (net st) in (inr a, mkState (objects st) w (trace st)).

(** [try: body / except Exception as e: handler e] *)
Definition try_except `{World} {A : Type} (body : M A) (handler : exn → M A) : M A :=
  λ st,
    match body st with
    | (inl (Exc e), st') => handler e st'
    | other => other
    end.

(** [requests.post(...)] *)
Definition requests_post `{World} (call : PostCall) : M Response :=
  emit (EvPost call) ;; r ← ask (net_post call) ; lift r.

Definition logger_info `{World} (msg : string) (args : list attr_value)
    (extra : list (string * jvalue)) : M unit :=
  emit (EvLog INFO msg args extra).

Definition logger_error `{World} (msg : string) (args : list attr_value)
    (extra : list (string * jvalue)) : M unit :=
  emit (EvLog ERROR msg args extra).

(** [print(line, file=out)] *)
Definition print `{World} (out : stream) (line : string) : M unit :=
  emit (EvPrint out line).

(** Creates an object with the given attributes and returns its reference. *)
Definition new_object `{World} (c : RegistrationClient) : M nat :=
  λ st, (inr (length (objects st)), mkState (objects st ++ [c]) (net st) (trace st)).

(** [self.<field>]; a reference that names no object has no attribute. *)
Definition self_attr `{World} {A : Type} (self : nat) (field : RegistrationClient → A)
  : M A :=
  λ st,
    match objects st !! self with
    | Some c => (inr (field c), st)
    | None =>
        (inl (Exc (Foreign (ForeignExn "AttributeError" "object has no such attribute"))), st)
    end.

(** [l[i]] on a list: [IndexError] past the end. *)
Definition list_getitem {A : Type} (l : list A) (i : nat) : foreign_exn + A :=
  match l !! i with
  | Some a => inr a
  | None => inl (ForeignExn "IndexError" "list index out of range")
  end.

Section program.
Context {T : PyTypes} {R : PyRuntime} {W : World}.

(** ** RegistrationClient (lines 32-119) *)

(** The default of the [timeout] parameter of [__init__]. *)
Definition default_timeout : Z := 10.

(** [RegistrationClient(api_url, oidc_token_url, oidc_client_id,
    oidc_client_secret, timeout)]: [__init__] sets the five attributes of the
    new object. *)
Definition RegistrationClient_init
    (api_url oidc_token_url oidc_client_id oidc_client_secret : string) (timeout : Z)
  : M nat :=
  new_object
    (mkRegistrationClient (rstrip "/" api_url) oidc_token_url oidc_client_id
       oidc_client_secret timeout).

Definition _get_jwt_access_token (self : nat) : M jvalue :=
  token_url ← self_attr self oidc_token_url ;
  client_id ← self_attr self oidc_client_id ;
  client_secret ← self_attr self oidc_client_secret ;
  token_resp ← requests_post
    (mkPostCall token_url
       (Some [("grant_type", "client_credentials");
              ("client_id", client_id);
              ("client_secret", client_secret)])
       None
       [("Content-Type", "application/x-www-form-urlencoded")]
       None) ;
  match raise_for_status token_resp with
  | Some e => raise (Exc (Foreign e))
  | None => mret ()
  end ;;
  body ← lift (json token_resp) ;
  access_token ← lift (py_getitem body "access_token") ;
  mret access_token.

Definition _get_headers (self : nat) : M (list (string * string)) :=
  let headers :=
    [("Accept", "application/json"); ("Content-Type", "application/json")] in
  access_token ← _get_jwt_access_token self ;
  logger_info ("Access token: " +:+ py_str access_token) [] [] ;;
  let headers :=
    if truthy access_token
    then dict_set headers "Authorization" ("Bearer " +:+ py_str access_token)
    else headers in
  mret headers.

Definition _safe_json (response : Response) : jvalue :=
  match json response with
  | inr v => v
  | inl _ => JNull
  end.

(** The constructor call of line 112, which unpacks the decoded body into
    keyword arguments: the unpacking needs a mapping, and pydantic validates
    the keyword arguments. *)
Definition SiteRegistrationResponse_init (body : jvalue) : M SiteRegistrationResponse :=
  match body with
  | JObj items => lift (validate_response items)
  | _ =>
      lift (inl (ForeignExn "TypeError"
                   (module_name +:+ ".SiteRegistrationResponse() argument after ** "
                      +:+ "must be a mapping, not " +:+ type_name body)))
  end.

Definition register_site (self : nat) (site_name public_key : string)
  : M SiteRegistrationResponse :=
  api ← self_attr self api_url ;
  let url := api +:+ "/register" in
  let payload := model_dump (mkSiteRegistrationRequest site_name public_key) in
  response ← try_except
    (headers ← _get_headers self ;
     tmo ← self_attr self timeout ;
     requests_post (mkPostCall url None (Some (JObj payload)) headers (Some tmo)))
    (λ request_exc,
       logger_error "Error while calling registration endpoint" []
         [("url", JStr url);
          ("payload", JObj payload);
          ("exception_type", JStr (class_name request_exc));
          ("exception", JStr (exn_str request_exc))] ;;
       raise (Exc request_exc)) ;
  if bool_decide (status_code response ≠ 201) then
    logger_error "Registration API error" []
      [("url", JStr url);
       ("payload", JObj payload);
       ("status_code", JInt (status_code response));
       ("response_text", JStr (text response));
       ("response_json", _safe_json response)] ;;
    raise (Exc (RegistrationApiError
                  ("Error " +:+ pretty (status_code response) +:+ ": "
                     +:+ text response)))
  else
    body ← lift (json response) ;
    SiteRegistrationResponse_init body.

(** ** The command line (lines 122-165) *)

Definition usage : string :=
  "Usage: register.py <api_url> <site_name> <public_key> <oidc_token_url> <oidc_client_id> <oidc_client_secret>".

(** [result.get(key)]: the attribute [get] is looked up, then called. *)
Definition result_get (result : SiteRegistrationResponse) (key : string) : M attr_value :=
  get ← lift (getattr_response result "get") ;
  lift (py_call get [key]).

Definition main (argv : list string) : M unit :=
  (if bool_decide (length argv < 7)%nat
   then print Stderr usage ;; raise (SystemExit 1)
   else mret ()) ;;
  api_url ← lift (list_getitem argv 1) ;
  site_name ← lift (list_getitem argv 2) ;
  public_key ← lift (list_getitem argv 3) ;
  oidc_token_url ← lift (list_getitem argv 4) ;
  oidc_client_id ← lift (list_getitem argv 5) ;
  oidc_client_secret ← lift (list_getitem argv 6) ;
  logger_info ("Registering site '" +:+ site_name +:+ " @ '" +:+ api_url) [] [] ;;
  logger_info ("OIDC token URL: " +:+ oidc_token_url +:+ ", OIDC client: "
                 +:+ oidc_client_id +:+ ", OIDC secret: " +:+ oidc_client_secret)
    [] [] ;;
  registration_client ← RegistrationClient_init api_url oidc_token_url
    oidc_client_id oidc_client_secret default_timeout ;
  hostname ← ask socket_gethostname ;
  os ← ask platform_system ;
  uuid ← ask uuid_uuid4 ;
  let metadata : list (string * string) :=
    [("hostname", hostname); ("os", os); ("uuid", uuid); ("public_key", public_key)] in
  try_except
    (result ← register_site registration_client site_name public_key ;
     logger_info "Registration successful!" [] [] ;;
     v_id ← result_get result "id" ;
     logger_info "Assigned ID:" [v_id] [] ;;
     v_repo ← result_get result "github_repo_url" ;
     logger_info "Github repo: " [v_repo] [] ;;
     v_created ← result_get result "created_at" ;
     logger_info "Created at:" [v_created] [])
    (λ e, print Stdout ("Registration failed: " +:+ exn_str e)).

(** The exit status of the process: 0 when [main] returns, the code of
    [sys.exit], and 1 for an exception that nothing caught. *)
Definition exit_status {A : Type} (r : raised + A) : Z :=
  match r with
  | inr _ => 0
  | inl (SystemExit code) => code
  | inl (Exc _) => 1
  end.

(** Running the script (lines 164-165) in a fresh process: no object yet, no
    event yet.  The result is the exit status and the final state. *)
Definition run_script (argv : list string) (w : world) : Z * state :=
  let '(r, st) := main argv (mkState [] w []) in (exit_status r, st).

End program.

(** ** Reading a run *)

(** The vocabulary of the statements below: the two HTTP calls a client
    makes, the events a call adds to the trace, and what the token step
    extracts from the answer of the token endpoint. *)
Section reading.
Context {T : PyTypes} {R : PyRuntime} {W : World}.

(** The calls of [requests.post] among some events, in order. *)
Fixpoint posts (evs : list event) : list PostCall :=
  match evs with
  | [] => []
  | EvPost call :: evs' => call :: posts evs'
  | _ :: evs' => posts evs'
  end.

(** The request of lines 47-55 for a client with attributes [c]. *)
Definition token_call (c : RegistrationClient) : PostCall :=
  mkPostCall (oidc_token_url c)
    (Some [("grant_type", "client_credentials");
           ("client_id", oidc_client_id c);
           ("client_secret", oidc_client_secret c)])
    None
    [("Content-Type", "application/x-www-form-urlencoded")]
    None.

(** The request of lines 79-84 with the given headers. *)
Definition register_call (c : RegistrationClient) (site_name public_key : string)
    (headers : list (string * string)) : PostCall :=
  mkPostCall (api_url c +:+ "/register") None
    (Some (JObj [("site_name", JStr site_name); ("public_key", JStr public_key)]))
    headers
    (Some (timeout c)).

(** The headers of lines 61-69 for an access token. *)
Definition headers_of_token (access_token : jvalue) : list (string * string) :=
  if truthy access_token
  then [("Accept", "application/json"); ("Content-Type", "application/json");
        ("Authorization", "Bearer " +:+ py_str access_token)]
  else [("Accept", "application/json"); ("Content-Type", "application/json")].

(** What lines 56-58 make of the answer to the token request. *)
Definition token_of_answer (answer : foreign_exn + Response) : foreign_exn + jvalue :=
  match answer with
  | inl e => inl e
  | inr token_resp =>
      match raise_for_status token_resp with
      | Some e => inl e
      | None =>
          match json token_resp with
          | inl e => inl e
          | inr body => py_getitem body "access_token"
          end
      end
  end.

(** The message of the [RegistrationApiError] of lines 108-110. *)
Definition api_error_message (status : Z) (body : string) : string :=
  "Error " +:+ pretty status +:+ ": " +:+ body.

(** The record that the handler of lines 85-95 logs. *)
Definition request_error_log (c : RegistrationClient) (site_name public_key : string)
    (e : exn) : event :=
  EvLog ERROR "Error while calling registration endpoint" []
    [("url", JStr (api_url c +:+ "/register"));
     ("payload", JObj [("site_name", JStr site_name); ("public_key", JStr public_key)]);
     ("exception_type", JStr (class_name e));
     ("exception", JStr (exn_str e))].

(** The record that lines 98-107 log. *)
Definition api_error_log (c : RegistrationClient) (site_name public_key : string)
    (response : Response) : event :=
  EvLog ERROR "Registration API error" []
    [("url", JStr (api_url c +:+ "/register"));
     ("payload", JObj [("site_name", JStr site_name); ("public_key", JStr public_key)]);
     ("status_code", JInt (status_code response));
     ("response_text", JStr (text response));
     ("response_json", _safe_json response)].

(** The attributes of the client that [main] builds from [sys.argv]. *)
Definition client_of_argv (argv : list string) : RegistrationClient :=
  mkRegistrationClient
    (rstrip "/" (default "" (argv !! 1%nat)))
    (default "" (argv !! 4%nat))
    (default "" (argv !! 5%nat))
    (default "" (argv !! 6%nat))
    10.

(** The state in which [main] reaches the [try] of line 151: the two records
    of lines 134-135 are logged, the client is the newest object, and the
    world has answered the three questions of lines 145-147. *)
Definition at_registration (argv : list string) (st : state) : state :=
  let w1 := (socket_gethostname (net st)).2 in
  let w2 := (platform_system w1).2 in
  let w3 := (uuid_uuid4 w2).2 in
  mkState (objects st ++ [client_of_argv argv]) w3
    (trace st ++
       [EvLog INFO ("Registering site '" +:+ default "" (argv !! 2%nat) +:+ " @ '"
                      +:+ default "" (argv !! 1%nat)) [] [];
        EvLog INFO ("OIDC token URL: " +:+ default "" (argv !! 4%nat)
                      +:+ ", OIDC client: " +:+ default "" (argv !! 5%nat)
                      +:+ ", OIDC secret: " +:+ default "" (argv !! 6%nat)) [] []]).

(** Successive calls of [register_site] on one client, each with its site
    name and public key; the result is the state after the last one. *)
Fixpoint register_many (self : nat) (calls : list (string * string)) (st : state)
  : state :=
  match calls with
  | [] => st
  | (site_name, public_key) :: calls' =>
      register_many self calls' (register_site self site_name public_key st).2
  end.

End reading.

(** ** A concrete runtime and a scripted world *)

(** The instances at which the statements are exercised.  No float occurs, a
    [datetime] is kept as its ISO 8601 text, and validation accepts a body
    whose four fields have the declared JSON types. *)
Definition ex_types : PyTypes := {| pyfloat := Empty_set; datetime := string |}.

Definition ex_validate (kwargs : list (string * @jvalue ex_types))
  : foreign_exn + @SiteRegistrationResponse ex_types :=
  match dict_get kwargs "id", dict_get kwargs "site_name",
        dict_get kwargs "created_at", dict_get kwargs "created_by" with
  | Some (JInt n), Some (JStr s), Some (JStr d), Some (JStr b) =>
      inr (mkSiteRegistrationResponse n s (d : @datetime ex_types) b)
  | _, _, _, _ =>
      inl (ForeignExn "ValidationError"
             "validation errors for SiteRegistrationResponse")
  end.

Definition ex_runtime : @PyRuntime ex_types := {|
  float_truthy := λ f : @pyfloat ex_types, match f with end;
  float_repr := λ f : @pyfloat ex_types, match f with end;
  str_repr := λ s, "'" +:+ s +:+ "'";
  module_name := "__main__";
  validate_response := ex_validate;
|}.

(** A world that plays a script: each call of [requests.post] takes the next
    answer of the list, and a connection is refused once the list is used
    up. *)
Definition ex_world : @World ex_types := {|
  world := list (foreign_exn + @Response ex_types);
  net_post := λ _ w,
    match w with
    | [] => (inl (ForeignExn "ConnectionError" "connection refused"), [])
    | answer :: w' => (answer, w')
    end;
  socket_gethostname := λ w, ("node-1", w);
  platform_system := λ w, ("Linux", w);
  uuid_uuid4 := λ w, ("6f1c2a9e-3b4d-4c5e-8f70-123456789abc", w);
|}.

Definition ex_client : RegistrationClient :=
  mkRegistrationClient "https://api.example" "https://idp.example/token"
    "node" "s3cret" 10.

Definition ex_argv : list string :=
  ["register.py"; "https://api.example/"; "alpha"; "PUBKEY123";
   "https://idp.example/token"; "node"; "s3cret"].

(** Answers of the two endpoints. *)
Definition ex_token_answer (status : Z) (access_token : @jvalue ex_types)
  : @Response ex_types :=
  mkResponse status "" "https://idp.example/token" "token"
    (inr (JObj [("access_token", access_token); ("token_type", JStr "Bearer")])).

Definition ex_created_body : @jvalue ex_types :=
  JObj [("id", JInt 7); ("site_name", JStr "alpha");
        ("created_at", JStr "2025-01-01T00:00:00Z"); ("created_by", JStr "node")].

Definition ex_register_answer (status : Z) (body : string) : @Response ex_types :=
  mkResponse status "" "https://api.example/register" body (inr ex_created_body).

Definition ex_state (answers : list (foreign_exn + @Response ex_types))
  : @state ex_types ex_world :=
  mkState [ex_client] (answers : @world ex_types ex_world) [].

(** Scripts: both endpoints accept; the registration endpoint answers 409;
    the registration endpoint is unreachable; the token endpoint answers 401;
    the token endpoint answers 201 with a token; the token endpoint answers
    200 with an empty token. *)
Definition ex_created : list (foreign_exn + @Response ex_types) :=
  [inr (ex_token_answer 200 (JStr "tok")); inr (ex_register_answer 201 "created")].

Definition ex_conflict : list (foreign_exn + @Response ex_types) :=
  [inr (ex_token_answer 200 (JStr "tok")); inr (ex_register_answer 409 "conflict")].

Definition ex_unreachable : list (foreign_exn + @Response ex_types) :=
  [inr (ex_token_answer 200 (JStr "tok"))].

Definition ex_denied : list (foreign_exn + @Response ex_types) :=
  [inr (ex_token_answer 401 (JStr "tok")); inr (ex_register_answer 201 "created")].

Definition ex_token_201 : list (foreign_exn + @Response ex_types) :=
  [inr (ex_token_answer 201 (JStr "tok")); inr (ex_register_answer 201 "created")].

Definition ex_empty_token : list (foreign_exn + @Response ex_types) :=
  [inr (ex_token_answer 200 (JStr "")); inr (ex_register_answer 201 "created")].

(** Two registrations in a row, the token endpoint issuing [old] and then
    [new]. *)
Definition ex_two_calls : list (foreign_exn + @Response ex_types) :=
  [inr (ex_token_answer 200 (JStr "old")); inr (ex_register_answer 201 "created");
   inr (ex_token_answer 200 (JStr "new")); inr (ex_register_answer 201 "created")].

(** The response object that validation builds from [ex_created_body]. *)
Definition ex_result : @SiteRegistrationResponse ex_types :=
  mkSiteRegistrationResponse 7 "alpha" ("2025-01-01T00:00:00Z" : @datetime ex_types) "node".

(** ** Observing a trace *)

Section observing.
Context {T : PyTypes}.

(** The records logged at level [ERROR] among some events, in order. *)
Fixpoint error_records (evs : list event) : list event :=
  match evs with
  | [] => []
  | EvLog ERROR msg args extra :: evs' => EvLog ERROR msg args extra :: error_records evs'
  | _ :: evs' => error_records evs'
  end.

(** The number of token exchanges among some requests: a token request is
    the one that carries a form ([data]), the registration request carries
    [json]. *)
Definition token_exchanges (calls : list PostCall) : nat :=
  length (filter (λ call, is_Some (post_data call)) calls).

End observing.

(** The string of [n] times the character [c]. *)
Fixpoint repeat_char (c : ascii) (n : nat) : string :=
  match n with
  | O => EmptyString
  | S n' => String c (repeat_char c n')
  end.

(** Further scripts: the token endpoint answers 200 with an object that has
    no [access_token]; it answers 200 with a JSON list; it cannot be reached;
    the registration endpoint answers 201 with a body that lacks fields; it
    answers 201 with a JSON list; it answers 502 with a body that is no
    JSON. *)
Definition ex_no_access_token : list (foreign_exn + @Response ex_types) :=
  [inr (mkResponse 200 "OK" "https://idp.example/token" "token"
          (inr (JObj [("token_type", JStr "Bearer")])));
   inr (ex_register_answer 201 "created")].

Definition ex_token_list : list (foreign_exn + @Response ex_types) :=
  [inr (mkResponse 200 "OK" "https://idp.example/token" "token"
          (inr (JArr [JStr "tok"])));
   inr (ex_register_answer 201 "created")].

Definition ex_token_timeout : list (foreign_exn + @Response ex_types) :=
  [inl (ForeignExn "ConnectTimeout" "connection to idp.example timed out");
   inr (ex_register_answer 201 "created")].

Definition ex_incomplete_body : list (foreign_exn + @Response ex_types) :=
  [inr (ex_token_answer 200 (JStr "tok"));
   inr (mkResponse 201 "Created" "https://api.example/register" "partial"
          (inr (JObj [("id", JInt 7)])))].

Definition ex_list_body : list (foreign_exn + @Response ex_types) :=
  [inr (ex_token_answer 200 (JStr "tok"));
   inr (mkResponse 201 "Created" "https://api.example/register" "list"
          (inr (JArr [JInt 7])))].

Definition ex_bad_gateway : list (foreign_exn + @Response ex_types) :=
  [inr (ex_token_answer 200 (JStr "tok"));
   inr (mkResponse 502 "Bad Gateway" "https://api.example/register" "bad gateway"
          (inl (ForeignExn "JSONDecodeError" "Expecting value: line 1 column 1 (char 0)")))].

(** * Properties *)

(** ** The message of an API error names its status and body *)

Lemma occurs_app c s1 s2 : occurs c (s1 +:+ s2) = occurs c s1 || occurs c s2.
Proof. induction s1 as [|a s1 IH]; simpl; [done|]. by rewrite IH, orb_assoc. Qed.

Lemma pretty_N_char_no_colon x : pretty_N_char x ≠ ":"%char.
Proof. unfold pretty_N_char. by repeat case_match. Qed.

Lemma pretty_N_go_no_colon x s :
  occurs ":" s = false → occurs ":" (pretty_N_go x s) = false.
Proof.
  revert s. induction (N.lt_wf_0 x) as [x _ IH]; intros s Hs.
  destruct (decide (x = 0%N)) as [->|Hx]; [by rewrite pretty_N_go_0|].
  rewrite pretty_N_go_step by lia. apply IH.
  - apply N.div_lt; lia.
  - cbn. rewrite Hs, orb_false_r. apply bool_decide_eq_false_2, pretty_N_char_no_colon.
Qed.

(** [str(n)] of an integer holds no colon. *)
Lemma pretty_Z_no_colon (n : Z) : occurs ":" (pretty n) = false.
Proof.
  assert (∀ p : positive, occurs ":" (pretty p) = false) as Hpos.
  { intros p. unfold pretty, pretty_positive, pretty, pretty_N.
    case_decide; [done|]. by apply pretty_N_go_no_colon. }
  destruct n as [|p|p]; [done|apply Hpos|].
  unfold pretty, pretty_Z. rewrite occurs_app. cbn. apply Hpos.
Qed.

(** A string is cut in one way only at its first [c]. *)
Lemma cut_at_first c d1 d2 r1 r2 :
  occurs c d1 = false → occurs c d2 = false →
  d1 +:+ String c r1 = d2 +:+ String c r2 → d1 = d2 ∧ r1 = r2.
Proof.
  revert d2. induction d1 as [|a d1 IH]; intros [|b d2]; cbn.
  - by intros _ _ [= ->].
  - intros _ Hb [= <- _]. by rewrite bool_decide_eq_true_2 in Hb.
  - intros Ha _ [= -> _]. by rewrite bool_decide_eq_true_2 in Ha.
  - intros [_ H1]%orb_false_elim [_ H2]%orb_false_elim [= -> Heq].
    by destruct (IH d2 H1 H2 Heq) as [-> ->].
Qed.

Lemma api_error_message_inj s1 b1 s2 b2 :
  api_error_message s1 b1 = api_error_message s2 b2 → s1 = s2 ∧ b1 = b2.
Proof.
  unfold api_error_message. intros [= Heq].
  assert (pretty s1 +:+ String ":" (String " " b1)
          = pretty s2 +:+ String ":" (String " " b2)) as Hcut by exact Heq.
  apply cut_at_first in Hcut as [Hs [= ->]]; [|apply pretty_Z_no_colon..].
  split; [by apply (inj pretty)|done].
Qed.

(** ** How the operations run *)

Section runs.
Context {T : PyTypes} {R : PyRuntime} {W : World}.

Lemma bind_run {A B : Type} (m : M A) (f : A → M B) (st : state) :
  (m ≫= f) st =
    match m st with
    | (inr a, st') => f a st'
    | (inl r, st') => (inl r, st')
    end.
Proof. reflexivity. Qed.

Lemma self_attr_run {A : Type} (self : nat) (field : RegistrationClient → A) c st :
  objects st !! self = Some c → self_attr self field st = (inr (field c), st).
Proof. intros Hc. unfold self_attr. by rewrite Hc. Qed.

Lemma requests_post_run call st :
  requests_post call st =
    let '(answer, w) := net_post call (net st) in
    (match answer with inl e => inl (Exc (Foreign e)) | inr r => inr r end,
     mkState (objects st) w (trace st ++ [EvPost call])).
Proof.
  unfold requests_post, emit, ask. rewrite !bind_run. cbn.
  destruct (net_post call (net st)) as [[e|r] w]; reflexivity.
Qed.

(** The token step makes one request and returns what lines 56-58 extract
    from the answer. *)
Lemma get_token_run st self c :
  objects st !! self = Some c →
  _get_jwt_access_token self st =
    let '(answer, w) := net_post (token_call c) (net st) in
    (match token_of_answer answer with
     | inl e => inl (Exc (Foreign e))
     | inr tok => inr tok
     end,
     mkState (objects st) w (trace st ++ [EvPost (token_call c)])).
Proof.
  intros Hc. unfold _get_jwt_access_token.
  do 3 (rewrite bind_run, (self_attr_run _ _ c) by done).
  rewrite bind_run, requests_post_run. fold (token_call c).
  destruct (net_post (token_call c) (net st)) as [[e|token_resp] w]; [done|].
  cbn. rewrite bind_run.
  destruct (raise_for_status token_resp) as [e|]; [done|]. cbn.
  rewrite bind_run.
  destruct (json token_resp) as [e|body]; [done|]. cbn.
  rewrite bind_run.
  destruct (py_getitem body "access_token") as [e|tok]; done.
Qed.

Lemma get_headers_run st self c :
  objects st !! self = Some c →
  _get_headers self st =
    let '(answer, w) := net_post (token_call c) (net st) in
    match token_of_answer answer with
    | inl e =>
        (inl (Exc (Foreign e)),
         mkState (objects st) w (trace st ++ [EvPost (token_call c)]))
    | inr tok =>
        (inr (headers_of_token tok),
         mkState (objects st) w
           (trace st ++ [EvPost (token_call c);
                         EvLog INFO ("Access token: " +:+ py_str tok) [] []]))
    end.
Proof.
  intros Hc. unfold _get_headers. rewrite bind_run, (get_token_run _ _ c) by done.
  destruct (net_post (token_call c) (net st)) as [answer w].
  destruct (token_of_answer answer) as [e|tok]; [done|].
  rewrite bind_run. cbn. unfold headers_of_token.
  rewrite <-(assoc_L (++)). by destruct (truthy tok).
Qed.

(** The whole of [register_site], case by case: the token step fails; the
    registration request fails in transport; the answer has another status
    than 201; the answer has status 201 and line 112 builds the result. *)
Lemma register_site_run st self c site key :
  objects st !! self = Some c →
  register_site self site key st =
    let '(a1, w1) := net_post (token_call c) (net st) in
    match token_of_answer a1 with
    | inl e =>
        (inl (Exc (Foreign e)),
         mkState (objects st) w1
           (trace st ++ [EvPost (token_call c);
                         request_error_log c site key (Foreign e)]))
    | inr tok =>
        let rc := register_call c site key (headers_of_token tok) in
        let evs := [EvPost (token_call c);
                    EvLog INFO ("Access token: " +:+ py_str tok) [] [];
                    EvPost rc] in
        let '(a2, w2) := net_post rc w1 in
        match a2 with
        | inl e =>
            (inl (Exc (Foreign e)),
             mkState (objects st) w2
               (trace st ++ evs ++ [request_error_log c site key (Foreign e)]))
        | inr response =>
            if bool_decide (status_code response ≠ 201) then
              (inl (Exc (RegistrationApiError
                           (api_error_message (status_code response) (text response)))),
               mkState (objects st) w2
                 (trace st ++ evs ++ [api_error_log c site key response]))
            else
              (lift (json response) ≫= SiteRegistrationResponse_init)
                (mkState (objects st) w2 (trace st ++ evs))
        end
    end.
Proof.
  intros Hc. unfold register_site.
  rewrite bind_run, (self_attr_run _ _ c) by done.
  rewrite bind_run. unfold try_except at 1.
  rewrite bind_run, (get_headers_run _ _ c) by done.
  destruct (net_post (token_call c) (net st)) as [a1 w1].
  destruct (token_of_answer a1) as [e|tok].
  { rewrite bind_run. cbn. by rewrite <-(assoc_L (++)). }
  rewrite bind_run, (self_attr_run _ _ c) by done.
  rewrite requests_post_run. cbn [objects net trace].
  change (model_dump _) with [("site_name", JStr site); ("public_key", JStr key)].
  fold (register_call c site key (headers_of_token tok)).
  destruct (net_post _ w1) as [[e|response] w2].
  { rewrite bind_run. cbn. by rewrite <-!(assoc_L (++)). }
  cbn zeta. rewrite <-!(assoc_L (++)). cbn [app].
  case_bool_decide; [|done].
  rewrite bind_run. cbn. by rewrite <-!(assoc_L (++)).
Qed.

(** Line 112 leaves the state alone; it returns the validated instance or
    raises what decoding, unpacking or validation raised. *)
Lemma build_response_run response st :
  ∃ r : foreign_exn + SiteRegistrationResponse,
    (lift (json response) ≫= SiteRegistrationResponse_init) st =
      (match r with inl e => inl (Exc (Foreign e)) | inr x => inr x end, st)
    ∧ (∀ items x, json response = inr (JObj items) →
         validate_response items = inr x → r = inr x).
Proof.
  rewrite bind_run. destruct (json response) as [e|body]; cbn.
  { exists (inl e). split; [done|]. intros ?? [=]. }
  destruct body; cbn;
    try (eexists (inl _); split; [reflexivity|]; by intros ?? [=]).
  exists (validate_response items). split.
  - by destruct (validate_response items).
  - by intros ?? [= ->].
Qed.

(** A reference that names no object: the first attribute access fails. *)
Lemma register_site_dangling st self site key :
  objects st !! self = None →
  ∃ e, register_site self site key st = (inl (Exc e), st).
Proof.
  intros Hc. unfold register_site. rewrite bind_run. unfold self_attr.
  rewrite Hc. by eexists.
Qed.

(** Every run of [register_site] ends in a state with the same objects and
    a longer trace, and it returns or raises an [Exception]. *)
Lemma register_site_frame st self site key :
  ∃ (r : exn + SiteRegistrationResponse) w evs,
    register_site self site key st =
      (match r with inl e => inl (Exc e) | inr x => inr x end,
       mkState (objects st) w (trace st ++ evs)).
Proof.
  destruct (objects st !! self) as [c|] eqn:Hc.
  - rewrite (register_site_run _ _ c) by done.
    destruct (net_post (token_call c) (net st)) as [a1 w1].
    destruct (token_of_answer a1) as [e|tok].
    { by exists (inl (Foreign e)), w1, [EvPost (token_call c);
                                         request_error_log c site key (Foreign e)]. }
    cbn zeta. destruct (net_post _ w1) as [[e|response] w2].
    { by eexists (inl (Foreign e)), w2, _. }
    case_bool_decide.
    { by eexists (inl (RegistrationApiError _)), w2, _. }
    destruct (build_response_run response
                (mkState (objects st) w2
                   (trace st ++ [EvPost (token_call c);
                      EvLog INFO ("Access token: " +:+ py_str tok) [] [];
                      EvPost (register_call c site key (headers_of_token tok))])))
      as (r & -> & _).
    destruct r as [e|x]; [by eexists (inl (Foreign e)), w2, _|by eexists (inr x), w2, _].
  - destruct (register_site_dangling st self site key Hc) as [e ->].
    exists (inl e), (net st), []. rewrite (right_id_L [] (++)). by destruct st.
Qed.

Lemma register_site_objects st self site key :
  objects (register_site self site key st).2 = objects st.
Proof.
  destruct (register_site_frame st self site key) as (r & w & evs & ->). done.
Qed.

Lemma register_many_objects self calls st :
  objects (register_many self calls st) = objects st.
Proof.
  revert st. induction calls as [|[site key] calls IH]; intros st; [done|].
  cbn. by rewrite IH, register_site_objects.
Qed.

(** No attribute [get] on a response object. *)
Lemma getattr_response_get (result : SiteRegistrationResponse) :
  getattr_response result "get" =
    inl (ForeignExn "AttributeError"
           "'SiteRegistrationResponse' object has no attribute 'get'").
Proof. reflexivity. Qed.

(** [main] past the argument check: the state of line 151 is reached, the
    client being the newest object, and the [try] statement turns each
    outcome of [register_site] into a printed line or a log record. *)
Lemma main_run argv st :
  (7 ≤ length argv)%nat →
  main argv st =
    match register_site (length (objects st)) (default "" (argv !! 2%nat))
            (default "" (argv !! 3%nat)) (at_registration argv st) with
    | (inr result, st') =>
        (inr (),
         mkState (objects st') (net st')
           (trace st' ++
              [EvLog INFO "Registration successful!" [] [];
               EvPrint Stdout
                 "Registration failed: 'SiteRegistrationResponse' object has no attribute 'get'"]))
    | (inl (Exc e), st') =>
        (inr (),
         mkState (objects st') (net st')
           (trace st' ++ [EvPrint Stdout ("Registration failed: " +:+ exn_str e)]))
    | (inl (SystemExit code), st') => (inl (SystemExit code), st')
    end.
Proof.
  intros Hlen.
  destruct argv as [|a0 [|a1 [|a2 [|a3 [|a4 [|a5 [|a6 rest]]]]]]];
    cbn in Hlen; try lia.
  unfold main. rewrite bind_run.
  rewrite bool_decide_eq_false_2 by (cbn; lia).
  unfold at_registration, client_of_argv, default_timeout.
  unfold logger_info, emit, ask, RegistrationClient_init, new_object, lift,
    list_getitem.
  cbn -[register_site rstrip].
  do 9 (rewrite bind_run; cbn -[register_site rstrip]).
  rewrite bind_run; cbn -[register_site rstrip].
  destruct (socket_gethostname (net st)) as [hostname w1].
  rewrite bind_run; cbn -[register_site rstrip].
  destruct (platform_system w1) as [os w2].
  rewrite bind_run; cbn -[register_site rstrip].
  destruct (uuid_uuid4 w2) as [uuid w3]. cbn -[register_site rstrip].
  rewrite <-(assoc_L (++)). cbn -[register_site rstrip].
  unfold try_except. rewrite bind_run.
  destruct (register_site _ _ _ _) as [[[e|code]|result] st']; [done..|].
  rewrite bind_run. cbn. rewrite bind_run. unfold result_get.
  rewrite bind_run, getattr_response_get. unfold lift, raise, print, emit. cbn.
  by rewrite <-(assoc_L (++)).
Qed.

(** The events of one call of [register_site] start with the token request;
    a registration request follows when the token step gave a token, and
    there is no further request. *)
Lemma register_site_events st self c site key :
  objects st !! self = Some c →
  ∃ evs,
    trace (register_site self site key st).2
      = trace st ++ EvPost (token_call c) :: evs
    ∧ posts evs =
        match token_of_answer (net_post (token_call c) (net st)).1 with
        | inl _ => []
        | inr tok => [register_call c site key (headers_of_token tok)]
        end.
Proof.
  intros Hc. rewrite (register_site_run _ _ c) by done.
  destruct (net_post (token_call c) (net st)) as [a1 w1]. cbn [fst].
  destruct (token_of_answer a1) as [e|tok]; [by eexists|].
  cbn zeta. destruct (net_post _ w1) as [[e|response] w2]; [by eexists|].
  case_bool_decide; [by eexists|].
  destruct (build_response_run response
              (mkState (objects st) w2
                 (trace st ++ [EvPost (token_call c);
                    EvLog INFO ("Access token: " +:+ py_str tok) [] [];
                    EvPost (register_call c site key (headers_of_token tok))])))
    as (r & -> & _).
  by eexists.
Qed.

(** The requests of one call, in order. *)
Lemma register_site_posts st self c site key :
  objects st !! self = Some c →
  ∃ evs,
    trace (register_site self site key st).2 = trace st ++ evs
    ∧ posts evs =
        match token_of_answer (net_post (token_call c) (net st)).1 with
        | inl _ => [token_call c]
        | inr tok =>
            [token_call c; register_call c site key (headers_of_token tok)]
        end.
Proof.
  intros Hc.
  destruct (register_site_events st self c site key Hc) as (evs & Htrace & Hposts).
  exists (EvPost (token_call c) :: evs). split; [done|].
  cbn [posts]. rewrite Hposts. by destruct (token_of_answer _).
Qed.

End runs.

(** ** The registration client *)

Section client.
Context {T : PyTypes} {R : PyRuntime} {W : World}.

(** C2: whatever the registration endpoint answers, only status 201 counts as
    success.  With any other status [register_site] raises
    [RegistrationApiError], a class of its own and so no transport error,
    whose message is built from that status and the raw body and determines
    both; with status 201 it raises no [RegistrationApiError] and returns the
    instance that validation builds from the decoded body. *)
Theorem register_site_succeeds_on_201_only st self c site key a1 w1 tok response w2 :
  objects st !! self = Some c →
  net_post (token_call c) (net st) = (a1, w1) →
  token_of_answer a1 = inr tok →
  net_post (register_call c site key (headers_of_token tok)) w1 = (inr response, w2) →
  let outcome := (register_site self site key st).1 in
  (status_code response ≠ 201 →
     outcome = inl (Exc (RegistrationApiError
                           (api_error_message (status_code response) (text response))))
     ∧ (∀ e, RegistrationApiError
               (api_error_message (status_code response) (text response)) ≠ Foreign e)
     ∧ (∀ status body,
          api_error_message status body
            = api_error_message (status_code response) (text response) →
          status = status_code response ∧ body = text response))
  ∧ (status_code response = 201 →
       (∀ msg, outcome ≠ inl (Exc (RegistrationApiError msg)))
       ∧ (∀ items x, json response = inr (JObj items) →
            validate_response items = inr x → outcome = inr x)).
Proof.
  intros Hc H1 Htok H2 outcome. subst outcome.
  rewrite (register_site_run _ _ c) by done.
  rewrite H1, Htok. cbn zeta. rewrite H2. split.
  - intros Hne. rewrite bool_decide_eq_true_2 by done.
    split; [done|]. split; [done|].
    intros status body Heq. by apply api_error_message_inj.
  - intros Heq. rewrite bool_decide_eq_false_2 by (by intros []).
    destruct (build_response_run response
                (mkState (objects st) w2
                   (trace st ++ [EvPost (token_call c);
                      EvLog INFO ("Access token: " +:+ py_str tok) [] [];
                      EvPost (register_call c site key (headers_of_token tok))])))
      as (r & -> & Hr).
    split.
    + intros msg. by destruct r.
    + intros items x Hjson Hval. by rewrite (Hr items x).
Qed.

(** C7: when the call of the registration endpoint raises a transport error,
    [register_site] raises that very exception, not a [RegistrationApiError]
    and not a wrapper, and the run has made the one registration request
    only. *)
Theorem register_site_reraises_transport_error st self c site key a1 w1 tok e w2 :
  objects st !! self = Some c →
  net_post (token_call c) (net st) = (a1, w1) →
  token_of_answer a1 = inr tok →
  net_post (register_call c site key (headers_of_token tok)) w1 = (inl e, w2) →
  (register_site self site key st).1 = inl (Exc (Foreign e))
  ∧ net (register_site self site key st).2 = w2
  ∧ ∃ evs,
      trace (register_site self site key st).2 = trace st ++ evs
      ∧ posts evs = [token_call c; register_call c site key (headers_of_token tok)].
Proof.
  intros Hc H1 Htok H2.
  rewrite (register_site_run _ _ c) by done.
  rewrite H1, Htok. cbn zeta. rewrite H2. cbn.
  split; [done|]. split; [done|]. by eexists.
Qed.

(** C3, amended: when the token endpoint answers with a status from 400 to
    599, [register_site] raises the [HTTPError] of [raise_for_status], and the
    only request of the run is the token request: the registration endpoint
    is not called. *)
Theorem token_error_status_stops_registration st self c site key token_resp w1 :
  objects st !! self = Some c →
  net_post (token_call c) (net st) = (inr token_resp, w1) →
  400 ≤ status_code token_resp < 600 →
  ∃ e,
    raise_for_status token_resp = Some e
    ∧ exc_type e = "HTTPError"
    ∧ (register_site self site key st).1 = inl (Exc (Foreign e))
    ∧ ∃ evs,
        trace (register_site self site key st).2 = trace st ++ evs
        ∧ posts evs = [token_call c].
Proof.
  intros Hc H1 Hstatus.
  assert (∃ e, raise_for_status token_resp = Some e ∧ exc_type e = "HTTPError")
    as (e & He & Hty).
  { unfold raise_for_status. repeat case_bool_decide; try by eexists. lia. }
  exists e. split; [done|]. split; [done|].
  rewrite (register_site_run _ _ c) by done.
  rewrite H1. cbn [token_of_answer]. rewrite He. cbn.
  split; [done|]. by eexists.
Qed.

(** C6: the model built from [(site_name, public_key)] dumps to the object
    with the two keys [site_name] and [public_key] and nothing else, and that
    object is the [json] argument of the registration request, which has no
    [data] argument: the run makes the token request and, when the token step
    gives a token, the registration request with this payload. *)
Theorem registration_payload_is_exact st self c site key :
  objects st !! self = Some c →
  model_dump (mkSiteRegistrationRequest site key)
    = [("site_name", JStr site); ("public_key", JStr key)]
  ∧ ∃ evs,
      trace (register_site self site key st).2 = trace st ++ evs
      ∧ posts evs =
          match token_of_answer (net_post (token_call c) (net st)).1 with
          | inl _ => [token_call c]
          | inr tok =>
              [token_call c;
               mkPostCall (api_url c +:+ "/register") None
                 (Some (JObj [("site_name", JStr site); ("public_key", JStr key)]))
                 (headers_of_token tok) (Some (timeout c))]
          end.
Proof.
  intros Hc. split; [done|]. by apply register_site_posts.
Qed.

(** C8, amended: in whatever state [register_site] is called, its first
    request is the token request, and the registration request that follows
    takes its headers from the token this very exchange returned: [Accept],
    [Content-Type] and, when the token is truthy, [Authorization] with
    [Bearer] and the token; a falsy token (empty string, [None], zero,
    [False], empty list or dict) leaves [Authorization] out. *)
Theorem registration_headers_follow_fresh_token st self c site key a1 w1 tok :
  objects st !! self = Some c →
  net_post (token_call c) (net st) = (a1, w1) →
  token_of_answer a1 = inr tok →
  ∃ evs headers,
    trace (register_site self site key st).2 = trace st ++ evs
    ∧ posts evs = [token_call c; register_call c site key headers]
    ∧ headers =
        (if truthy tok
         then [("Accept", "application/json"); ("Content-Type", "application/json");
               ("Authorization", "Bearer " +:+ py_str tok)]
         else [("Accept", "application/json"); ("Content-Type", "application/json")])
    ∧ (∀ s, tok = JStr s → s ≠ "" →
         headers = [("Accept", "application/json");
                    ("Content-Type", "application/json");
                    ("Authorization", "Bearer " +:+ s)]).
Proof.
  intros Hc H1 Htok.
  destruct (register_site_posts st self c site key Hc) as (evs & Htrace & Hposts).
  rewrite H1 in Hposts. cbn [fst] in Hposts. rewrite Htok in Hposts.
  exists evs, (headers_of_token tok). split; [done|]. split; [done|].
  split; [done|]. intros s -> Hs. unfold headers_of_token. cbn.
  by rewrite bool_decide_eq_false_2.
Qed.

(** C9: the constructor stores the five configuration attributes, and no run
    of [register_site], however it ends, changes an object: after any number
    of calls the client still has the attributes the constructor gave it. *)
Theorem client_configuration_is_fixed api token_url client_id client_secret tmo calls st :
  ∃ self st1,
    RegistrationClient_init api token_url client_id client_secret tmo st = (inr self, st1)
    ∧ objects st1 !! self
        = Some (mkRegistrationClient (rstrip "/" api) token_url client_id
                  client_secret tmo)
    ∧ objects (register_many self calls st1) !! self
        = Some (mkRegistrationClient (rstrip "/" api) token_url client_id
                  client_secret tmo)
    ∧ (∀ self' site key st',
         objects (register_site self' site key st').2 = objects st').
Proof.
  eexists _, _. split; [reflexivity|].
  assert (∀ (l : list RegistrationClient) x, (l ++ [x]) !! length l = Some x) as Hlast.
  { intros l x. by rewrite lookup_app_r, Nat.sub_diag. }
  split; [apply Hlast|]. split.
  - rewrite register_many_objects. apply Hlast.
  - intros. apply register_site_objects.
Qed.

(** C10: the token request is made without a timeout, the registration
    request with the [timeout] attribute of the client, which is 10 when the
    constructor is called with the default. *)
Theorem only_registration_request_has_timeout st self c site key :
  objects st !! self = Some c →
  (∃ evs token_post,
     trace (register_site self site key st).2 = trace st ++ evs
     ∧ post_url token_post = oidc_token_url c
     ∧ post_timeout token_post = None
     ∧ (posts evs = [token_post]
        ∨ ∃ register_post,
            posts evs = [token_post; register_post]
            ∧ post_url register_post = api_url c +:+ "/register"
            ∧ post_timeout register_post = Some (timeout c)))
  ∧ (∀ api token_url client_id client_secret st0,
       ∃ self0 st1,
         RegistrationClient_init api token_url client_id client_secret
           default_timeout st0 = (inr self0, st1)
         ∧ timeout <$> objects st1 !! self0 = Some 10).
Proof.
  intros Hc. split.
  - destruct (register_site_posts st self c site key Hc) as (evs & Htrace & Hposts).
    exists evs, (token_call c). split; [done|]. split; [done|]. split; [done|].
    destruct (token_of_answer _) as [e|tok]; [by left|].
    right. by eexists.
  - intros. eexists _, _. split; [reflexivity|]. cbn.
    by rewrite lookup_app_r, Nat.sub_diag.
Qed.

End client.

(** ** The command line *)

Section command_line.
Context {T : PyTypes} {R : PyRuntime} {W : World}.

(** C1, as the code has it: when the arguments are there and [register_site]
    returns a response, [main] logs that the registration succeeded, then
    fails on [result.get], which a response object does not have; it prints
    that the registration failed and logs neither the identifier nor the
    timestamp.  The exit status is 0. *)
Theorem main_reports_failure_after_success argv w result st' :
  (7 ≤ length argv)%nat →
  register_site 0 (default "" (argv !! 2%nat)) (default "" (argv !! 3%nat))
    (at_registration argv (mkState [] w [])) = (inr result, st') →
  run_script argv w =
    (0, mkState (objects st') (net st')
          (trace st' ++
             [EvLog INFO "Registration successful!" [] [];
              EvPrint Stdout
                "Registration failed: 'SiteRegistrationResponse' object has no attribute 'get'"])).
Proof.
  intros Hlen Hreg. unfold run_script. rewrite main_run by done.
  cbn [objects length]. by rewrite Hreg.
Qed.

(** C4: when the arguments are there and [register_site] raises an
    exception, [main] prints the message of the exception after
    [Registration failed:] and returns, so the exit status is 0. *)
Theorem main_exits_zero_on_failure argv w e st' :
  (7 ≤ length argv)%nat →
  register_site 0 (default "" (argv !! 2%nat)) (default "" (argv !! 3%nat))
    (at_registration argv (mkState [] w [])) = (inl (Exc e), st') →
  run_script argv w =
    (0, mkState (objects st') (net st')
          (trace st' ++ [EvPrint Stdout ("Registration failed: " +:+ exn_str e)])).
Proof.
  intros Hlen Hreg. unfold run_script. rewrite main_run by done.
  cbn [objects length]. by rewrite Hreg.
Qed.

(** C5: with fewer than six arguments after the program name, [main] prints
    the usage line of line 124, word for word, on standard error and the exit
    status is 1, nothing else having happened; with six, it logs the two records, builds the client
    from the arguments and starts the registration, whose first step is the
    token request of that client. *)
Theorem main_checks_argument_count prog args w :
  ((length args < 6)%nat →
     run_script (prog :: args) w =
       (1, mkState [] w
             [EvPrint Stderr
                "Usage: register.py <api_url> <site_name> <public_key> <oidc_token_url> <oidc_client_id> <oidc_client_secret>"]))
  ∧ ((length args = 6)%nat →
       ∃ st' evs,
         run_script (prog :: args) w = (0, st')
         ∧ objects st' = [client_of_argv (prog :: args)]
         ∧ trace st' =
             trace (at_registration (prog :: args) (mkState [] w []))
               ++ EvPost (token_call (client_of_argv (prog :: args))) :: evs).
Proof.
  split.
  - intros Hlen. unfold run_script, main. rewrite bind_run.
    rewrite bool_decide_eq_true_2 by (cbn; lia).
    rewrite bind_run. by cbn.
  - intros Hlen. unfold run_script.
    rewrite main_run by (cbn; lia). cbn [objects length].
    set (argv := prog :: args). set (st1 := at_registration argv _).
    assert (objects st1 !! 0%nat = Some (client_of_argv argv)) as Hc by done.
    pose proof (register_site_objects st1 0 (default "" (argv !! 2%nat))
                  (default "" (argv !! 3%nat))) as Hobj.
    destruct (register_site_events st1 0 (client_of_argv argv)
                (default "" (argv !! 2%nat)) (default "" (argv !! 3%nat)) Hc)
      as (evs & Htrace & _).
    destruct (register_site_frame st1 0 (default "" (argv !! 2%nat))
                (default "" (argv !! 3%nat))) as (r & w' & evs0 & Hrun).
    rewrite Hrun in Htrace, Hobj |- *. cbn [snd objects trace] in Htrace, Hobj.
    destruct r as [e|result]; eexists _, _; (split; [done|]); cbn [objects trace];
      (split; [done|]); by rewrite Htrace, <-(assoc_L (++)).
Qed.

End command_line.

(** ** Concrete runs *)

(** The statements above at the scripted world. *)

Lemma register_site_succeeds_on_201_only_witness :
  (@register_site ex_types ex_runtime ex_world 0 "alpha" "PUBKEY123"
     (ex_state ex_conflict)).1
    = inl (Exc (RegistrationApiError "Error 409: conflict"))
  ∧ (@register_site ex_types ex_runtime ex_world 0 "alpha" "PUBKEY123"
       (ex_state ex_created)).1
    = inr ex_result.
Proof.
  split.
  - destruct (@register_site_succeeds_on_201_only ex_types ex_runtime ex_world
                (ex_state ex_conflict) 0 ex_client "alpha" "PUBKEY123"
                _ _ _ _ _ eq_refl eq_refl eq_refl eq_refl) as [Hother _].
    destruct Hother as [Hraise _]; [vm_compute; discriminate|exact Hraise].
  - destruct (@register_site_succeeds_on_201_only ex_types ex_runtime ex_world
                (ex_state ex_created) 0 ex_client "alpha" "PUBKEY123"
                _ _ _ _ _ eq_refl eq_refl eq_refl eq_refl) as [_ H201].
    destruct H201 as [_ Hret]; [reflexivity|].
    exact (Hret _ ex_result eq_refl eq_refl).
Defined.

Lemma register_site_reraises_transport_error_witness :
  (@register_site ex_types ex_runtime ex_world 0 "alpha" "PUBKEY123"
     (ex_state ex_unreachable)).1
    = inl (Exc (Foreign (ForeignExn "ConnectionError" "connection refused"))).
Proof.
  exact (proj1 (@register_site_reraises_transport_error ex_types ex_runtime ex_world
                  (ex_state ex_unreachable) 0 ex_client "alpha" "PUBKEY123"
                  _ _ _ _ _ eq_refl eq_refl eq_refl eq_refl)).
Defined.

Lemma token_error_status_stops_registration_witness :
  ∃ e,
    (@register_site ex_types ex_runtime ex_world 0 "alpha" "PUBKEY123"
       (ex_state ex_denied)).1 = inl (Exc (Foreign e))
    ∧ exc_type e = "HTTPError".
Proof.
  destruct (@token_error_status_stops_registration ex_types ex_runtime ex_world
              (ex_state ex_denied) 0 ex_client "alpha" "PUBKEY123" _ _
              eq_refl eq_refl) as (e & _ & Hty & Hrun & _).
  { cbn. lia. }
  exists e. by split.
Defined.

(** C3, as stated, fails: the token endpoint answers 201, which is not 200,
    and the run goes on to the registration endpoint and returns its
    response. *)
Lemma token_status_201_reaches_registration :
  let st := ex_state ex_token_201 in
  let run := @register_site ex_types ex_runtime ex_world 0 "alpha" "PUBKEY123" st in
  (∃ token_resp w1,
     @net_post ex_types ex_world (token_call ex_client) (net st) = (inr token_resp, w1)
     ∧ status_code token_resp ≠ 200)
  ∧ run.1 = inr ex_result
  ∧ posts (trace run.2)
      = [token_call ex_client;
         register_call ex_client "alpha" "PUBKEY123"
           [("Accept", "application/json"); ("Content-Type", "application/json");
            ("Authorization", "Bearer tok")]].
Proof.
  cbv zeta. split; [|split; vm_compute; reflexivity].
  eexists _, _. split; [reflexivity|]. vm_compute. discriminate.
Qed.

Lemma registration_payload_is_exact_witness :
  posts (trace (@register_site ex_types ex_runtime ex_world 0 "alpha" "PUBKEY123"
                  (ex_state ex_created)).2)
    = [token_call ex_client;
       mkPostCall "https://api.example/register" None
         (Some (JObj [("site_name", JStr "alpha"); ("public_key", JStr "PUBKEY123")]))
         [("Accept", "application/json"); ("Content-Type", "application/json");
          ("Authorization", "Bearer tok")]
         (Some 10)].
Proof.
  destruct (@registration_payload_is_exact ex_types ex_runtime ex_world
              (ex_state ex_created) 0 ex_client "alpha" "PUBKEY123" eq_refl)
    as (_ & evs & Htrace & Hposts).
  change (trace (ex_state ex_created) ++ evs) with evs in Htrace.
  rewrite Htrace. exact Hposts.
Defined.

(** The second of two calls on one client sends the token of its own
    exchange. *)
Lemma registration_headers_follow_fresh_token_witness :
  let st1 :=
    (@register_site ex_types ex_runtime ex_world 0 "alpha" "PUBKEY123"
       (ex_state ex_two_calls)).2 in
  ∃ evs,
    trace (@register_site ex_types ex_runtime ex_world 0 "beta" "PUBKEY456" st1).2
      = trace st1 ++ evs
    ∧ posts evs
        = [token_call ex_client;
           register_call ex_client "beta" "PUBKEY456"
             [("Accept", "application/json"); ("Content-Type", "application/json");
              ("Authorization", "Bearer new")]].
Proof.
  intros st1.
  destruct (@registration_headers_follow_fresh_token ex_types ex_runtime ex_world
              st1 0 ex_client "beta" "PUBKEY456" _ _ (JStr "new")
              eq_refl eq_refl eq_refl) as (evs & headers & Htrace & Hposts & _ & Hstr).
  exists evs. split; [exact Htrace|].
  rewrite Hposts. by rewrite (Hstr "new" eq_refl).
Defined.

(** C8, as stated, fails: the token endpoint answers 200 with an empty
    [access_token], and the registration request goes out without an
    [Authorization] header. *)
Lemma empty_token_sends_no_authorization :
  let st := ex_state ex_empty_token in
  let run := @register_site ex_types ex_runtime ex_world 0 "alpha" "PUBKEY123" st in
  @token_of_answer ex_types
      (@net_post ex_types ex_world (token_call ex_client) (net st)).1
    = inr (JStr "")
  ∧ posts (trace run.2)
      = [token_call ex_client;
         register_call ex_client "alpha" "PUBKEY123"
           [("Accept", "application/json"); ("Content-Type", "application/json")]]
  ∧ posts (trace run.2)
      ≠ [token_call ex_client;
         register_call ex_client "alpha" "PUBKEY123"
           [("Accept", "application/json"); ("Content-Type", "application/json");
            ("Authorization", "Bearer ")]].
Proof.
  cbv zeta. split; [reflexivity|]. split; [vm_compute; reflexivity|].
  vm_compute. discriminate.
Qed.

Lemma only_registration_request_has_timeout_witness :
  map post_timeout
    (posts (trace (@register_site ex_types ex_runtime ex_world 0 "alpha" "PUBKEY123"
                     (ex_state ex_created)).2))
    = [None; Some 10].
Proof.
  destruct (@only_registration_request_has_timeout ex_types ex_runtime ex_world
              (ex_state ex_created) 0 ex_client "alpha" "PUBKEY123" eq_refl)
    as [(evs & token_post & Htrace & _ & Hnone & Hposts) _].
  change (trace (ex_state ex_created) ++ evs) with evs in Htrace.
  rewrite Htrace.
  destruct Hposts as [Hposts|(register_post & Hposts & _ & Hsome)].
  - exfalso. rewrite <-Htrace in Hposts. vm_compute in Hposts. discriminate.
  - rewrite Hposts. cbn [map]. by rewrite Hnone, Hsome.
Defined.

Lemma main_reports_failure_after_success_witness :
  ∃ st,
    @run_script ex_types ex_runtime ex_world ex_argv ex_created = (0, st)
    ∧ last (trace st)
        = Some (EvPrint Stdout
                  "Registration failed: 'SiteRegistrationResponse' object has no attribute 'get'").
Proof.
  eexists. split.
  - apply (@main_reports_failure_after_success ex_types ex_runtime ex_world
             ex_argv ex_created ex_result
             (@register_site ex_types ex_runtime ex_world 0 "alpha" "PUBKEY123"
                (at_registration ex_argv (@mkState ex_types ex_world [] ex_created []))).2).
    + cbn. lia.
    + vm_compute. reflexivity.
  - vm_compute. reflexivity.
Defined.

Lemma main_exits_zero_on_failure_witness :
  ∃ st,
    @run_script ex_types ex_runtime ex_world ex_argv ex_conflict = (0, st)
    ∧ last (trace st) = Some (EvPrint Stdout "Registration failed: Error 409: conflict").
Proof.
  eexists. split.
  - apply (@main_exits_zero_on_failure ex_types ex_runtime ex_world
             ex_argv ex_conflict (RegistrationApiError "Error 409: conflict")
             (@register_site ex_types ex_runtime ex_world 0 "alpha" "PUBKEY123"
                (at_registration ex_argv (@mkState ex_types ex_world [] ex_conflict []))).2).
    + cbn. lia.
    + vm_compute. reflexivity.
  - vm_compute. reflexivity.
Defined.

Lemma main_checks_argument_count_witness :
  @run_script ex_types ex_runtime ex_world (take 6 ex_argv) ex_created
    = (1, @mkState ex_types ex_world [] ex_created
            [EvPrint Stderr
               "Usage: register.py <api_url> <site_name> <public_key> <oidc_token_url> <oidc_client_id> <oidc_client_secret>"])
  ∧ ∃ st evs,
      @run_script ex_types ex_runtime ex_world ex_argv ex_created = (0, st)
      ∧ objects st = [ex_client]
      ∧ trace st =
          trace (at_registration ex_argv (@mkState ex_types ex_world [] ex_created []))
            ++ EvPost (token_call ex_client) :: evs.
Proof.
  split.
  - apply (proj1 (@main_checks_argument_count ex_types ex_runtime ex_world
                    "register.py" (take 5 (tail ex_argv)) ex_created)).
    cbn. lia.
  - apply (proj2 (@main_checks_argument_count ex_types ex_runtime ex_world
                    "register.py" (tail ex_argv) ex_created)).
    reflexivity.
Defined.

(** * Further properties *)

(** ** Trailing slashes of the API URL *)

Lemma rstrip_repeat_char c n : rstrip c (repeat_char c n) = "".
Proof.
  induction n as [|n IH]; [done|]. simpl. rewrite IH.
  by rewrite !bool_decide_eq_true_2.
Qed.

Lemma rstrip_app_repeat_char c s n : rstrip c (s +:+ repeat_char c n) = rstrip c s.
Proof.
  induction s as [|a s IH]; simpl; [apply rstrip_repeat_char|]. by rewrite IH.
Qed.

Lemma rstrip_removes_trailing_only c s : ∃ k, s = rstrip c s +:+ repeat_char c k.
Proof.
  induction s as [|a s [k IH]]; [by exists 0%nat|]. simpl.
  destruct (bool_decide (rstrip c s = "")) eqn:Hr; simpl.
  - apply bool_decide_eq_true_1 in Hr. rewrite Hr in IH.
    case_bool_decide as Ha.
    + subst a. exists (S k). by rewrite IH at 1.
    + exists k. by rewrite Hr, IH at 1.
  - exists k. by rewrite IH at 1.
Qed.

Lemma rstrip_no_trailing c s s' : rstrip c s ≠ s' +:+ String c "".
Proof.
  revert s'. induction s as [|a s IH]; intros s'; simpl.
  { by destruct s'. }
  destruct (bool_decide (rstrip c s = "")) eqn:Hr; simpl.
  - apply bool_decide_eq_true_1 in Hr. case_bool_decide as Ha.
    + by destruct s'.
    + rewrite Hr. destruct s' as [|b s'].
      * by intros [= ->].
      * intros [= _ Heq]. by destruct s'.
  - apply bool_decide_eq_false_1 in Hr. destruct s' as [|b s'].
    + by intros [= _ Heq].
    + intros [= _ Heq]. by apply (IH s').
Qed.

Section more_client.
Context {T : PyTypes} {R : PyRuntime} {W : World}.

(** X1: the constructor drops the trailing slashes of [api_url] and nothing
    else: the stored URL is the same however many slashes follow the
    argument, it does not end in a slash, and the argument is the stored URL
    followed by slashes only. *)
Theorem client_api_url_drops_trailing_slashes api token_url client_id client_secret
    tmo n st :
  ∃ self st1 c,
    RegistrationClient_init (api +:+ repeat_char "/" n) token_url client_id
      client_secret tmo st = (inr self, st1)
    ∧ objects st1 !! self = Some c
    ∧ api_url c = rstrip "/" api
    ∧ (∀ s, api_url c ≠ s +:+ "/")
    ∧ (∃ k, api = api_url c +:+ repeat_char "/" k).
Proof.
  eexists _, _, _. split; [reflexivity|]. split.
  { cbn. by rewrite lookup_app_r, Nat.sub_diag. }
  cbn. rewrite rstrip_app_repeat_char. split; [done|]. split.
  - intros s. apply rstrip_no_trailing.
  - apply rstrip_removes_trailing_only.
Qed.

Lemma raise_for_status_passes (r : Response) :
  ¬ (400 ≤ status_code r < 600) → raise_for_status r = None.
Proof.
  intros Hs. unfold raise_for_status.
  rewrite !bool_decide_eq_false_2 by lia. done.
Qed.

Lemma raise_for_status_raises (r : Response) :
  400 ≤ status_code r < 600 → ∃ e, raise_for_status r = Some e.
Proof.
  intros Hs. unfold raise_for_status. repeat case_bool_decide; try by eexists. lia.
Qed.

(** X2: a token answer that passes [raise_for_status] and decodes to an
    object without the key [access_token] makes [register_site] raise
    [KeyError]; the handler logs the one error record, and no request goes to
    the registration endpoint. *)
Theorem missing_access_token_raises_key_error st self c site key token_resp w1 items :
  objects st !! self = Some c →
  net_post (token_call c) (net st) = (inr token_resp, w1) →
  ¬ (400 ≤ status_code token_resp < 600) →
  json token_resp = inr (JObj items) →
  dict_get items "access_token" = None →
  register_site self site key st =
    (inl (Exc (Foreign (ForeignExn "KeyError" "'access_token'"))),
     mkState (objects st) w1
       (trace st ++
          [EvPost (token_call c);
           request_error_log c site key
             (Foreign (ForeignExn "KeyError" "'access_token'"))])).
Proof.
  intros Hc H1 Hs Hjson Hkey.
  rewrite (register_site_run _ _ c) by done. rewrite H1.
  cbn [token_of_answer]. rewrite raise_for_status_passes, Hjson by done.
  cbn [py_getitem]. by rewrite Hkey.
Qed.

(** X3: a token answer that passes [raise_for_status] and decodes to
    anything but an object (a list, a string, a number, [None]) makes
    [register_site] raise [TypeError], and no request goes to the
    registration endpoint. *)
Theorem token_body_not_object_raises_type_error st self c site key token_resp w1 body :
  objects st !! self = Some c →
  net_post (token_call c) (net st) = (inr token_resp, w1) →
  ¬ (400 ≤ status_code token_resp < 600) →
  json token_resp = inr body →
  (∀ items, body ≠ JObj items) →
  ∃ msg evs,
    (register_site self site key st).1
      = inl (Exc (Foreign (ForeignExn "TypeError" msg)))
    ∧ trace (register_site self site key st).2 = trace st ++ evs
    ∧ posts evs = [token_call c].
Proof.
  intros Hc H1 Hs Hjson Hbody.
  rewrite (register_site_run _ _ c) by done. rewrite H1.
  cbn [token_of_answer]. rewrite raise_for_status_passes, Hjson by done.
  destruct body; try (cbn; by eexists _, _).
  by destruct (Hbody items).
Qed.

(** X4: a transport error of the token request is raised by [register_site]
    as it is; the handler logs the one error record with the class name and
    the message of the exception, and no request goes to the registration
    endpoint. *)
Theorem token_transport_error_is_reraised st self c site key e w1 :
  objects st !! self = Some c →
  net_post (token_call c) (net st) = (inl e, w1) →
  register_site self site key st =
    (inl (Exc (Foreign e)),
     mkState (objects st) w1
       (trace st ++
          [EvPost (token_call c);
           EvLog ERROR "Error while calling registration endpoint" []
             [("url", JStr (api_url c +:+ "/register"));
              ("payload",
               JObj [("site_name", JStr site); ("public_key", JStr key)]);
              ("exception_type", JStr (exc_type e));
              ("exception", JStr (exc_str e))]])).
Proof.
  intros Hc H1. rewrite (register_site_run _ _ c) by done. by rewrite H1.
Qed.

(** X5: the token step accepts every status that [raise_for_status] lets
    through, 200 or not: when the body decodes to an object with an
    [access_token], the registration request is sent with the headers of
    that token. *)
Theorem token_accepted_outside_error_statuses st self c site key token_resp w1 items tok :
  objects st !! self = Some c →
  net_post (token_call c) (net st) = (inr token_resp, w1) →
  ¬ (400 ≤ status_code token_resp < 600) →
  json token_resp = inr (JObj items) →
  dict_get items "access_token" = Some tok →
  ∃ evs,
    trace (register_site self site key st).2 = trace st ++ evs
    ∧ posts evs = [token_call c; register_call c site key (headers_of_token tok)].
Proof.
  intros Hc H1 Hs Hjson Hkey.
  destruct (register_site_posts st self c site key Hc) as (evs & Htrace & Hposts).
  exists evs. split; [done|]. rewrite Hposts, H1. cbn [fst token_of_answer].
  rewrite raise_for_status_passes, Hjson by done. cbn [py_getitem].
  by rewrite Hkey.
Qed.

End more_client.

Section more_outcomes.
Context {T : PyTypes} {R : PyRuntime} {W : World}.

Lemma posts_app (evs1 evs2 : list event) : posts (evs1 ++ evs2) = posts evs1 ++ posts evs2.
Proof.
  induction evs1 as [|ev evs1 IH]; [done|]. destruct ev; cbn; by rewrite IH.
Qed.

(** X6: status 201 with a body that cannot be used, be it that [json()]
    raises or that validation rejects the decoded object: [register_site]
    raises that exception and no [RegistrationApiError]; both requests have
    been made and this failure is not logged. *)
Theorem created_with_unusable_body_raises st self c site key a1 w1 tok response w2 e :
  objects st !! self = Some c →
  net_post (token_call c) (net st) = (a1, w1) →
  token_of_answer a1 = inr tok →
  net_post (register_call c site key (headers_of_token tok)) w1 = (inr response, w2) →
  status_code response = 201 →
  json response = inl e
  ∨ (∃ items, json response = inr (JObj items) ∧ validate_response items = inl e) →
  register_site self site key st =
    (inl (Exc (Foreign e)),
     mkState (objects st) w2
       (trace st ++
          [EvPost (token_call c);
           EvLog INFO ("Access token: " +:+ py_str tok) [] [];
           EvPost (register_call c site key (headers_of_token tok))])).
Proof.
  intros Hc H1 Htok H2 H201 Hbody.
  rewrite (register_site_run _ _ c) by done.
  rewrite H1, Htok. cbn zeta. rewrite H2.
  rewrite bool_decide_eq_false_2 by (by intros []).
  rewrite bind_run. destruct Hbody as [Hjson|(items & Hjson & Hval)]; rewrite Hjson.
  - done.
  - cbn. by rewrite Hval.
Qed.

(** X7: status 201 with a body that decodes to something else than an object
    (a list, a string, a number, [None]): the unpacking of line 112 raises
    [TypeError], which [register_site] raises. *)
Theorem created_with_non_object_body_raises_type_error st self c site key a1 w1 tok
    response w2 body :
  objects st !! self = Some c →
  net_post (token_call c) (net st) = (a1, w1) →
  token_of_answer a1 = inr tok →
  net_post (register_call c site key (headers_of_token tok)) w1 = (inr response, w2) →
  status_code response = 201 →
  json response = inr body →
  (∀ items, body ≠ JObj items) →
  ∃ msg,
    (register_site self site key st).1 = inl (Exc (Foreign (ForeignExn "TypeError" msg))).
Proof.
  intros Hc H1 Htok H2 H201 Hjson Hbody.
  rewrite (register_site_run _ _ c) by done.
  rewrite H1, Htok. cbn zeta. rewrite H2.
  rewrite bool_decide_eq_false_2 by (by intros []).
  rewrite bind_run, Hjson. cbn.
  destruct body; try by eexists. by destruct (Hbody items).
Qed.

(** X8: [register_site] returns a response only after the full exchange: the
    token endpoint answered with a status outside 400-599 and an object
    holding [access_token], the registration endpoint answered 201 with an
    object that validation turned into the returned response; the two
    requests and the one [INFO] record are all that happened. *)
Theorem register_site_returns_only_after_201 st self c site key x st' :
  objects st !! self = Some c →
  register_site self site key st = (inr x, st') →
  ∃ token_resp w1 token_items tok response items,
    net_post (token_call c) (net st) = (inr token_resp, w1)
    ∧ ¬ (400 ≤ status_code token_resp < 600)
    ∧ json token_resp = inr (JObj token_items)
    ∧ dict_get token_items "access_token" = Some tok
    ∧ net_post (register_call c site key (headers_of_token tok)) w1
        = (inr response, net st')
    ∧ status_code response = 201
    ∧ json response = inr (JObj items)
    ∧ validate_response items = inr x
    ∧ objects st' = objects st
    ∧ trace st' =
        trace st ++
          [EvPost (token_call c);
           EvLog INFO ("Access token: " +:+ py_str tok) [] [];
           EvPost (register_call c site key (headers_of_token tok))].
Proof.
  intros Hc. rewrite (register_site_run _ _ c) by done.
  destruct (net_post (token_call c) (net st)) as [[e|token_resp] w1] eqn:H1;
    [by intros [=]|].
  cbn [token_of_answer].
  destruct (raise_for_status token_resp) as [e|] eqn:Hraise; [by intros [=]|].
  assert (¬ (400 ≤ status_code token_resp < 600)) as Hstatus.
  { intros Hs. apply raise_for_status_raises in Hs as [e He]. congruence. }
  destruct (json token_resp) as [e|token_body] eqn:Hjson; [by intros [=]|].
  destruct (py_getitem token_body "access_token") as [e|tok] eqn:Hget;
    [by intros [=]|].
  destruct token_body as [| | | | | |token_items]; try discriminate Hget.
  cbn in Hget. destruct (dict_get token_items "access_token") as [tok'|] eqn:Hkey;
    [|discriminate Hget].
  injection Hget as ->.
  cbn zeta.
  destruct (net_post _ w1) as [[e|response] w2] eqn:H2; [by intros [=]|].
  case_bool_decide as H201; [by intros [=]|].
  rewrite bind_run.
  destruct (json response) as [e|body] eqn:Hbody; [by intros [=]|]. cbn.
  destruct body as [| | | | | |items]; try by intros [=].
  cbn. destruct (validate_response items) as [e|x'] eqn:Hval; [by intros [=]|].
  intros [= <- <-]. by eexists token_resp, w1, token_items, tok, response, items.
Qed.

(** X9: [register_site] raises [RegistrationApiError] only for an answer of
    the registration endpoint whose status is not 201, and the message is
    built from that answer. *)
Theorem api_error_only_for_other_status st self c site key msg st' :
  objects st !! self = Some c →
  register_site self site key st = (inl (Exc (RegistrationApiError msg)), st') →
  ∃ a1 w1 tok response,
    net_post (token_call c) (net st) = (a1, w1)
    ∧ token_of_answer a1 = inr tok
    ∧ net_post (register_call c site key (headers_of_token tok)) w1
        = (inr response, net st')
    ∧ status_code response ≠ 201
    ∧ msg = "Error " +:+ pretty (status_code response) +:+ ": " +:+ text response.
Proof.
  intros Hc. rewrite (register_site_run _ _ c) by done.
  destruct (net_post (token_call c) (net st)) as [a1 w1] eqn:H1.
  destruct (token_of_answer a1) as [e|tok] eqn:Htok; [by intros [=]|].
  cbn zeta.
  destruct (net_post _ w1) as [[e|response] w2] eqn:H2; [by intros [=]|].
  case_bool_decide as H201.
  - intros [= <- <-]. by eexists a1, w1, tok, response.
  - destruct (build_response_run response
                (mkState (objects st) w2
                   (trace st ++ [EvPost (token_call c);
                      EvLog INFO ("Access token: " +:+ py_str tok) [] [];
                      EvPost (register_call c site key (headers_of_token tok))])))
      as (r & -> & _).
    by destruct r.
Qed.

(** X10: an answer with another status than 201 whose body is no JSON: the
    failure of [json()] inside [_safe_json] stays inside, the error record
    carries [None] as [response_json] beside the status and the raw text,
    and [RegistrationApiError] is raised. *)
Theorem api_error_with_undecodable_body st self c site key a1 w1 tok response w2 e :
  objects st !! self = Some c →
  net_post (token_call c) (net st) = (a1, w1) →
  token_of_answer a1 = inr tok →
  net_post (register_call c site key (headers_of_token tok)) w1 = (inr response, w2) →
  status_code response ≠ 201 →
  json response = inl e →
  register_site self site key st =
    (inl (Exc (RegistrationApiError
                 ("Error " +:+ pretty (status_code response) +:+ ": " +:+ text response))),
     mkState (objects st) w2
       (trace st ++
          [EvPost (token_call c);
           EvLog INFO ("Access token: " +:+ py_str tok) [] [];
           EvPost (register_call c site key (headers_of_token tok));
           EvLog ERROR "Registration API error" []
             [("url", JStr (api_url c +:+ "/register"));
              ("payload", JObj [("site_name", JStr site); ("public_key", JStr key)]);
              ("status_code", JInt (status_code response));
              ("response_text", JStr (text response));
              ("response_json", JNull)]])).
Proof.
  intros Hc H1 Htok H2 Hne Hjson.
  rewrite (register_site_run _ _ c) by done.
  rewrite H1, Htok. cbn zeta. rewrite H2.
  rewrite bool_decide_eq_true_2 by done.
  unfold api_error_log, _safe_json. by rewrite Hjson.
Qed.

(** X11: one call of [register_site] logs at most one error record: none
    when it returns, exactly one when it raises [RegistrationApiError]. *)
Theorem at_most_one_error_record st self c site key :
  objects st !! self = Some c →
  ∃ evs,
    trace (register_site self site key st).2 = trace st ++ evs
    ∧ (length (error_records evs) ≤ 1)%nat
    ∧ (∀ x, (register_site self site key st).1 = inr x → error_records evs = [])
    ∧ (∀ msg, (register_site self site key st).1 = inl (Exc (RegistrationApiError msg)) →
         length (error_records evs) = 1%nat).
Proof.
  intros Hc. rewrite (register_site_run _ _ c) by done.
  destruct (net_post (token_call c) (net st)) as [a1 w1].
  destruct (token_of_answer a1) as [e|tok].
  { eexists. split; [done|]. cbn. split; [lia|]. by split. }
  cbn zeta. destruct (net_post _ w1) as [[e|response] w2].
  { eexists. split; [done|]. cbn. split; [lia|]. by split. }
  case_bool_decide.
  { eexists. split; [done|]. cbn. split; [lia|]. by split. }
  destruct (build_response_run response
              (mkState (objects st) w2
                 (trace st ++ [EvPost (token_call c);
                    EvLog INFO ("Access token: " +:+ py_str tok) [] [];
                    EvPost (register_call c site key (headers_of_token tok))])))
    as (r & -> & _).
  eexists. split; [done|]. cbn. split; [lia|]. split; [done|].
  intros msg. by destruct r.
Qed.

(** X12: [n] calls on one client make [n] token exchanges, one per call, and
    at most [2 n] requests in all: no call reuses the token of another. *)
Theorem every_call_exchanges_a_token calls st self c :
  objects st !! self = Some c →
  ∃ evs,
    trace (register_many self calls st) = trace st ++ evs
    ∧ token_exchanges (posts evs) = length calls
    ∧ (length (posts evs) ≤ 2 * length calls)%nat.
Proof.
  revert st. induction calls as [|[site key] calls IH]; intros st Hc.
  { exists []. by rewrite (right_id_L [] (++)). }
  cbn [register_many].
  destruct (register_site_posts st self c site key Hc) as (evs1 & Htrace1 & Hposts1).
  destruct (IH (register_site self site key st).2) as (evs2 & Htrace2 & Hcount & Hlen).
  { by rewrite register_site_objects. }
  exists (evs1 ++ evs2). split.
  { by rewrite Htrace2, Htrace1, (assoc_L (++)). }
  rewrite posts_app. unfold token_exchanges in *.
  rewrite filter_app, !length_app, Hcount, Hposts1.
  unfold token_call, register_call.
  destruct (token_of_answer _); cbn;
    rewrite decide_True by (by eexists);
    rewrite ?decide_False by (by intros [? ?]);
    cbn; split; lia.
Qed.

End more_outcomes.

Section more_command_line.
Context {T : PyTypes} {R : PyRuntime} {W : World}.

Lemma at_registration_app argv extra (st : state) :
  (7 ≤ length argv)%nat → at_registration (argv ++ extra) st = at_registration argv st.
Proof.
  intros Hlen. unfold at_registration, client_of_argv.
  by rewrite !(lookup_app_l argv extra) by lia.
Qed.

(** X13: the exit status of the script depends on the number of arguments
    and on nothing else: 1 with fewer than seven entries in [sys.argv], 0
    otherwise, whatever the two endpoints do. *)
Theorem exit_status_counts_arguments_only argv w :
  (run_script argv w).1 = if bool_decide (length argv < 7)%nat then 1 else 0.
Proof.
  unfold run_script. case_bool_decide as Hlen.
  - unfold main. rewrite bind_run, bool_decide_eq_true_2 by done.
    rewrite bind_run. by cbn.
  - rewrite main_run by lia. cbn [objects length].
    destruct (register_site_frame (at_registration argv (mkState [] w [])) 0
                (default "" (argv !! 2%nat)) (default "" (argv !! 3%nat)))
      as (r & w' & evs & ->).
    by destruct r.
Qed.

(** X14: arguments after the sixth are ignored: the run is the same with and
    without them. *)
Theorem extra_arguments_are_ignored argv extra w :
  (7 ≤ length argv)%nat →
  run_script (argv ++ extra) w = run_script argv w.
Proof.
  intros Hlen. unfold run_script.
  rewrite !main_run by (rewrite ?length_app; lia).
  rewrite at_registration_app by done.
  by rewrite !(lookup_app_l argv extra) by lia.
Qed.

(** X15: a run of the script past the argument check makes the token request
    of the client built from the arguments and at most one more request,
    the registration request, whose URL, payload and timeout come from the
    arguments and whose headers are [Accept], [Content-Type] and, for a
    truthy token, [Authorization] with the token of the token step; no other
    request is made and no other header is sent, so the host name, the
    operating system and the UUID that [main] collects are sent nowhere. *)
Theorem script_requests_come_from_arguments argv w :
  (7 ≤ length argv)%nat →
  let c := client_of_argv argv in
  let st1 := at_registration argv (mkState [] w []) in
  posts (trace (run_script argv w).2) =
    match token_of_answer (net_post (token_call c) (net st1)).1 with
    | inl _ => [token_call c]
    | inr tok =>
        [token_call c;
         mkPostCall (rstrip "/" (default "" (argv !! 1%nat)) +:+ "/register") None
           (Some (JObj [("site_name", JStr (default "" (argv !! 2%nat)));
                        ("public_key", JStr (default "" (argv !! 3%nat)))]))
           (if truthy tok
            then [("Accept", "application/json");
                  ("Content-Type", "application/json");
                  ("Authorization", "Bearer " +:+ py_str tok)]
            else [("Accept", "application/json");
                  ("Content-Type", "application/json")])
           (Some 10)]
    end
  ∧ token_call c =
      mkPostCall (default "" (argv !! 4%nat))
        (Some [("grant_type", "client_credentials");
               ("client_id", default "" (argv !! 5%nat));
               ("client_secret", default "" (argv !! 6%nat))])
        None
        [("Content-Type", "application/x-www-form-urlencoded")]
        None.
Proof.
  intros Hlen c st1. split; [|done]. unfold run_script. rewrite main_run by done.
  cbn [objects length]. fold st1.
  assert (objects st1 !! 0%nat = Some c) as Hc by done.
  destruct (register_site_posts st1 0 c (default "" (argv !! 2%nat))
              (default "" (argv !! 3%nat)) Hc) as (evs & Htrace & Hposts).
  destruct (register_site_frame st1 0 (default "" (argv !! 2%nat))
              (default "" (argv !! 3%nat))) as (r & w' & evs0 & Hrun).
  rewrite Hrun in Htrace |- *. cbn [snd trace] in Htrace.
  assert (∀ tail, posts tail = [] →
            posts ((trace st1 ++ evs0) ++ tail) = posts evs) as Hall.
  { intros tail Htail. rewrite Htrace, !posts_app, Htail.
    by rewrite (right_id_L [] (++)). }
  destruct r as [e|x]; cbn [snd trace]; rewrite Hall by done; rewrite Hposts;
    by destruct (token_of_answer _).
Qed.

(** X16: from the answer of the server to the terminal: when the registration
    endpoint answers with another status than 201, the script prints
    [Registration failed: Error], the status and the raw body as its last
    line, and exits with status 0. *)
Theorem script_prints_api_error argv w a1 w1 tok response w2 :
  (7 ≤ length argv)%nat →
  let c := client_of_argv argv in
  let site := default "" (argv !! 2%nat) in
  let key := default "" (argv !! 3%nat) in
  net_post (token_call c) (net (at_registration argv (mkState [] w []))) = (a1, w1) →
  token_of_answer a1 = inr tok →
  net_post (register_call c site key (headers_of_token tok)) w1 = (inr response, w2) →
  status_code response ≠ 201 →
  (run_script argv w).1 = 0
  ∧ last (trace (run_script argv w).2)
      = Some (EvPrint Stdout
                ("Registration failed: Error " +:+ pretty (status_code response)
                   +:+ ": " +:+ text response)).
Proof.
  intros Hlen c site key H1 Htok H2 Hne. unfold run_script.
  rewrite main_run by done. cbn [objects length].
  rewrite (register_site_run _ _ c) by done.
  rewrite H1, Htok. cbn zeta. fold site key. rewrite H2.
  rewrite bool_decide_eq_true_2 by done. cbn [fst snd exit_status trace].
  split; [done|]. by rewrite last_snoc.
Qed.

End more_command_line.

Section more_logging.
Context {T : PyTypes} {R : PyRuntime} {W : World}.

(** The trace of the script continues the trace of its call of
    [register_site]. *)
Lemma run_script_trace argv w :
  (7 ≤ length argv)%nat →
  ∃ tail,
    trace (run_script argv w).2
      = trace (register_site 0 (default "" (argv !! 2%nat)) (default "" (argv !! 3%nat))
                 (at_registration argv (mkState [] w []))).2 ++ tail.
Proof.
  intros Hlen. unfold run_script. rewrite main_run by done. cbn [objects length].
  destruct (register_site _ _ _ _) as [[[e|code]|x] st']; cbn; [by eexists| |by eexists].
  exists []. by rewrite (right_id_L [] (++)).
Qed.

(** A token, once obtained, is logged right after the token request. *)
Lemma register_site_logs_token st self c site key tok :
  objects st !! self = Some c →
  token_of_answer (net_post (token_call c) (net st)).1 = inr tok →
  ∃ tail,
    trace (register_site self site key st).2
      = trace st ++ [EvPost (token_call c);
                     EvLog INFO ("Access token: " +:+ py_str tok) [] []] ++ tail.
Proof.
  intros Hc. rewrite (register_site_run _ _ c) by done.
  destruct (net_post (token_call c) (net st)) as [a1 w1]. cbn [fst]. intros ->.
  cbn zeta. destruct (net_post _ w1) as [[e|response] w2]; [by eexists [_; _]|].
  case_bool_decide; [by eexists [_; _]|].
  destruct (build_response_run response
              (mkState (objects st) w2
                 (trace st ++ [EvPost (token_call c);
                    EvLog INFO ("Access token: " +:+ py_str tok) [] [];
                    EvPost (register_call c site key (headers_of_token tok))])))
    as (r & -> & _).
  by eexists [_].
Qed.

(** X17: the credentials reach the log in clear: every run past the argument
    check logs the record of line 135 with the OIDC client secret, and a run
    whose token step obtains a token logs that token (line 66). *)
Theorem script_logs_secret_and_token argv w :
  (7 ≤ length argv)%nat →
  let c := client_of_argv argv in
  let st1 := at_registration argv (mkState [] w []) in
  EvLog INFO ("OIDC token URL: " +:+ default "" (argv !! 4%nat)
                +:+ ", OIDC client: " +:+ default "" (argv !! 5%nat)
                +:+ ", OIDC secret: " +:+ default "" (argv !! 6%nat)) [] []
    ∈ trace (run_script argv w).2
  ∧ (∀ tok, token_of_answer (net_post (token_call c) (net st1)).1 = inr tok →
       EvLog INFO ("Access token: " +:+ py_str tok) [] []
         ∈ trace (run_script argv w).2).
Proof.
  intros Hlen c st1.
  destruct (run_script_trace argv w Hlen) as [tail ->]. fold st1.
  assert (objects st1 !! 0%nat = Some c) as Hc by done.
  split.
  - destruct (register_site_frame st1 0 (default "" (argv !! 2%nat))
                (default "" (argv !! 3%nat))) as (r & w' & evs & ->).
    cbn [snd trace]. rewrite !elem_of_app. left. left. right.
    apply list_elem_of_here.
  - intros tok Htok.
    destruct (register_site_logs_token st1 0 c (default "" (argv !! 2%nat))
                (default "" (argv !! 3%nat)) tok Hc Htok) as [tail' ->].
    rewrite !elem_of_app. left. right. left. right. apply list_elem_of_here.
Qed.

End more_logging.

(** ** Further concrete runs *)

Lemma missing_access_token_raises_key_error_witness :
  (@register_site ex_types ex_runtime ex_world 0 "alpha" "PUBKEY123"
     (ex_state ex_no_access_token)).1
    = inl (Exc (Foreign (ForeignExn "KeyError" "'access_token'"))).
Proof.
  rewrite (@missing_access_token_raises_key_error ex_types ex_runtime ex_world
             (ex_state ex_no_access_token) 0 ex_client "alpha" "PUBKEY123" _ _ _
             eq_refl eq_refl ltac:(cbn; lia) eq_refl eq_refl).
  reflexivity.
Defined.

Lemma token_body_not_object_raises_type_error_witness :
  ∃ msg,
    (@register_site ex_types ex_runtime ex_world 0 "alpha" "PUBKEY123"
       (ex_state ex_token_list)).1
      = inl (Exc (Foreign (ForeignExn "TypeError" msg))).
Proof.
  destruct (@token_body_not_object_raises_type_error ex_types ex_runtime ex_world
              (ex_state ex_token_list) 0 ex_client "alpha" "PUBKEY123" _ _ _
              eq_refl eq_refl ltac:(cbn; lia) eq_refl ltac:(discriminate))
    as (msg & evs & Hrun & _).
  by exists msg.
Defined.

Lemma token_transport_error_is_reraised_witness :
  (@register_site ex_types ex_runtime ex_world 0 "alpha" "PUBKEY123"
     (ex_state ex_token_timeout)).1
    = inl (Exc (Foreign (ForeignExn "ConnectTimeout"
                           "connection to idp.example timed out"))).
Proof.
  rewrite (@token_transport_error_is_reraised ex_types ex_runtime ex_world
             (ex_state ex_token_timeout) 0 ex_client "alpha" "PUBKEY123" _ _
             eq_refl eq_refl).
  reflexivity.
Defined.

Lemma token_accepted_outside_error_statuses_witness :
  ∃ evs,
    trace (@register_site ex_types ex_runtime ex_world 0 "alpha" "PUBKEY123"
             (ex_state ex_token_201)).2 = evs
    ∧ length (posts evs) = 2%nat.
Proof.
  destruct (@token_accepted_outside_error_statuses ex_types ex_runtime ex_world
              (ex_state ex_token_201) 0 ex_client "alpha" "PUBKEY123" _ _ _
              (JStr "tok") eq_refl eq_refl ltac:(cbn; lia) eq_refl eq_refl)
    as (evs & Htrace & Hposts).
  exists evs. split; [exact Htrace|]. by rewrite Hposts.
Defined.

Lemma created_with_unusable_body_raises_witness :
  (@register_site ex_types ex_runtime ex_world 0 "alpha" "PUBKEY123"
     (ex_state ex_incomplete_body)).1
    = inl (Exc (Foreign (ForeignExn "ValidationError"
                           "validation errors for SiteRegistrationResponse"))).
Proof.
  rewrite (@created_with_unusable_body_raises ex_types ex_runtime ex_world
             (ex_state ex_incomplete_body) 0 ex_client "alpha" "PUBKEY123" _ _ _ _ _
             (ForeignExn "ValidationError"
                "validation errors for SiteRegistrationResponse")
             eq_refl eq_refl eq_refl eq_refl eq_refl
             (or_intror (ex_intro _ _ (conj eq_refl eq_refl)))).
  reflexivity.
Defined.

Lemma created_with_non_object_body_raises_type_error_witness :
  ∃ msg,
    (@register_site ex_types ex_runtime ex_world 0 "alpha" "PUBKEY123"
       (ex_state ex_list_body)).1
      = inl (Exc (Foreign (ForeignExn "TypeError" msg))).
Proof.
  exact (@created_with_non_object_body_raises_type_error ex_types ex_runtime ex_world
           (ex_state ex_list_body) 0 ex_client "alpha" "PUBKEY123" _ _ _ _ _ _
           eq_refl eq_refl eq_refl eq_refl eq_refl eq_refl ltac:(discriminate)).
Defined.

Lemma register_site_returns_only_after_201_witness :
  ∃ response items,
    @status_code ex_types response = 201
    ∧ json response = inr (JObj items)
    ∧ ex_validate items = inr ex_result.
Proof.
  destruct (@register_site_returns_only_after_201 ex_types ex_runtime ex_world
              (ex_state ex_created) 0 ex_client "alpha" "PUBKEY123" ex_result
              (@register_site ex_types ex_runtime ex_world 0 "alpha" "PUBKEY123"
                 (ex_state ex_created)).2
              eq_refl ltac:(vm_compute; reflexivity))
    as (token_resp & w1 & token_items & tok & response & items
        & _ & _ & _ & _ & _ & H201 & Hjson & Hval & _).
  by exists response, items.
Defined.

Lemma api_error_only_for_other_status_witness :
  ∃ response,
    @status_code ex_types response ≠ 201
    ∧ "Error 409: conflict"
        = "Error " +:+ pretty (status_code response) +:+ ": " +:+ text response.
Proof.
  destruct (@api_error_only_for_other_status ex_types ex_runtime ex_world
              (ex_state ex_conflict) 0 ex_client "alpha" "PUBKEY123"
              "Error 409: conflict"
              (@register_site ex_types ex_runtime ex_world 0 "alpha" "PUBKEY123"
                 (ex_state ex_conflict)).2
              eq_refl ltac:(vm_compute; reflexivity))
    as (a1 & w1 & tok & response & _ & _ & _ & Hne & Hmsg).
  by exists response.
Defined.

Lemma api_error_with_undecodable_body_witness :
  last (trace (@register_site ex_types ex_runtime ex_world 0 "alpha" "PUBKEY123"
                 (ex_state ex_bad_gateway)).2)
    = Some (EvLog ERROR "Registration API error" []
              [("url", JStr "https://api.example/register");
               ("payload",
                JObj [("site_name", JStr "alpha"); ("public_key", JStr "PUBKEY123")]);
               ("status_code", JInt 502);
               ("response_text", JStr "bad gateway");
               ("response_json", JNull)]).
Proof.
  rewrite (@api_error_with_undecodable_body ex_types ex_runtime ex_world
             (ex_state ex_bad_gateway) 0 ex_client "alpha" "PUBKEY123" _ _ _ _ _ _
             eq_refl eq_refl eq_refl eq_refl ltac:(cbn; lia) eq_refl).
  reflexivity.
Defined.

Lemma at_most_one_error_record_witness :
  length (error_records
            (trace (@register_site ex_types ex_runtime ex_world 0 "alpha" "PUBKEY123"
                      (ex_state ex_conflict)).2)) = 1%nat.
Proof.
  destruct (@at_most_one_error_record ex_types ex_runtime ex_world
              (ex_state ex_conflict) 0 ex_client "alpha" "PUBKEY123" eq_refl)
    as (evs & Htrace & _ & _ & Hone).
  change (trace (ex_state ex_conflict) ++ evs) with evs in Htrace.
  rewrite Htrace. by apply (Hone "Error 409: conflict").
Defined.

Lemma every_call_exchanges_a_token_witness :
  token_exchanges
    (posts (trace (@register_many ex_types ex_runtime ex_world 0
                     [("alpha", "PUBKEY123"); ("beta", "PUBKEY456")]
                     (ex_state ex_two_calls)))) = 2%nat.
Proof.
  destruct (@every_call_exchanges_a_token ex_types ex_runtime ex_world
              [("alpha", "PUBKEY123"); ("beta", "PUBKEY456")]
              (ex_state ex_two_calls) 0 ex_client eq_refl)
    as (evs & Htrace & Hcount & _).
  change (trace (ex_state ex_two_calls) ++ evs) with evs in Htrace.
  rewrite Htrace. exact Hcount.
Defined.

Lemma extra_arguments_are_ignored_witness :
  @run_script ex_types ex_runtime ex_world (ex_argv ++ ["--verbose"; "x"]) ex_created
    = @run_script ex_types ex_runtime ex_world ex_argv ex_created.
Proof.
  apply (@extra_arguments_are_ignored ex_types ex_runtime ex_world). cbn. lia.
Defined.

Lemma script_requests_come_from_arguments_witness :
  posts (trace (@run_script ex_types ex_runtime ex_world ex_argv ex_unreachable).2)
    = [mkPostCall "https://idp.example/token"
         (Some [("grant_type", "client_credentials"); ("client_id", "node");
                ("client_secret", "s3cret")])
         None [("Content-Type", "application/x-www-form-urlencoded")] None;
       mkPostCall "https://api.example/register" None
         (Some (JObj [("site_name", JStr "alpha"); ("public_key", JStr "PUBKEY123")]))
         [("Accept", "application/json"); ("Content-Type", "application/json");
          ("Authorization", "Bearer tok")]
         (Some 10)].
Proof.
  destruct (@script_requests_come_from_arguments ex_types ex_runtime ex_world
              ex_argv ex_unreachable ltac:(cbn; lia)) as [Hposts _].
  exact Hposts.
Defined.

Lemma script_prints_api_error_witness :
  last (trace (@run_script ex_types ex_runtime ex_world ex_argv ex_conflict).2)
    = Some (EvPrint Stdout "Registration failed: Error 409: conflict").
Proof.
  exact (proj2 (@script_prints_api_error ex_types ex_runtime ex_world
                  ex_argv ex_conflict _ _ _ _ _ ltac:(cbn; lia)
                  eq_refl eq_refl eq_refl ltac:(cbn; lia))).
Defined.

Lemma script_logs_secret_and_token_witness :
  EvLog INFO
    "OIDC token URL: https://idp.example/token, OIDC client: node, OIDC secret: s3cret"
    [] []
    ∈ trace (@run_script ex_types ex_runtime ex_world ex_argv ex_created).2
  ∧ EvLog INFO "Access token: tok" [] []
      ∈ trace (@run_script ex_types ex_runtime ex_world ex_argv ex_created).2.
Proof.
  destruct (@script_logs_secret_and_token ex_types ex_runtime ex_world
              ex_argv ex_created ltac:(cbn; lia)) as [Hsecret Htoken].
  split; [exact Hsecret|exact (Htoken (JStr "tok") eq_refl)].
Defined.
